(** * Data3 / 3.py: a JSON-backed list of people

    A shallow embedding of the record manager of [3.py] and the properties
    its description states about it.

    The program keeps a list of person dictionaries.  Dictionaries and lists
    are mutable Python objects, so the embedding keeps them in a heap of
    objects addressed by references; the functions of the program are
    computations in a state-and-exception monad over that heap, the files
    under [data/] and the text printed so far.  The two library calls whose
    behaviour the program depends on, [datetime.strptime] / [strftime] with
    the format ['%d.%m.%Y'] and [jsonschema.validate], are embedded from the
    way CPython and jsonschema implement them. *)

From Stdlib Require Import ZArith Floats Lia Ascii.
From stdpp Require Import base option gmap strings pretty list fin_maps sorting.

Set Warnings "-register-all".
Local Open Scope Z_scope.

(** * Values *)

(** What [json.load] yields: [None], [bool], [int], [float], [str], [list]
    and [dict] with [str] keys.  A dictionary is a finite map: [json.load]
    keeps the last value of a key that is written twice, and the order of
    the keys, which no function of the program looks at, is not kept.  A
    character of a [string] stands for one code point below 256; among those
    the decimal digits are ['0'..'9']. *)
Inductive json : Type :=
| JNull
| JBool (b : bool)
| JInt (z : Z)
| JFloat (f : float)
| JStr (s : string)
| JArr (l : list json)
| JObj (m : gmap string json).

(** A [datetime.datetime].  [strptime] with a format that has no time
    directive leaves hour, minute, second and microsecond at zero and the
    time zone unset, so only the calendar fields vary in this program. *)
Record datetime : Type := mk_datetime { dt_year : Z; dt_month : Z; dt_day : Z }.

(** A value held by a person dictionary in memory: something loaded from
    JSON (or a [str] given on the command line), or a parsed date. *)
Inductive pyval : Type :=
| PJson (j : json)
| PDatetime (d : datetime).

Definition py_str (s : string) : pyval := PJson (JStr s).
Definition py_None : pyval := PJson JNull.

(** * Calendar dates *)

Module Calendar.

(** [datetime._is_leap] *)
Definition is_leap (y : Z) : bool :=
  (y mod 4 =? 0) && (negb (y mod 100 =? 0) || (y mod 400 =? 0)).

(** [datetime._days_in_month] with the table [_DAYS_IN_MONTH]. *)
Definition days_in_month (y m : Z) : Z :=
  if (m =? 2) && is_leap y then 29
  else match m with
       | 1 | 3 | 5 | 7 | 8 | 10 | 12 => 31
       | 4 | 6 | 9 | 11 => 30
       | 2 => 28
       | _ => -1
       end.

(** [datetime._check_date_fields]: [MINYEAR = 1], [MAXYEAR = 9999]. *)
Definition check_date_fields (y m d : Z) : bool :=
  (1 <=? y) && (y <=? 9999) && (1 <=? m) && (m <=? 12)
  && (1 <=? d) && (d <=? days_in_month y m).

(** The invariant of every [datetime] object. *)
Definition valid (d : datetime) : Prop :=
  check_date_fields (dt_year d) (dt_month d) (dt_day d) = true.

End Calendar.

(** * Regular expressions of [_strptime]

    [_strptime] turns the format into a regular expression and runs
    [re.match] on the text.  The matcher below is the usual backtracking
    one: alternatives are tried from left to right, and a later alternative
    is tried when the rest of the pattern fails after an earlier one.  The
    continuation receives the text matched and the text left. *)

Module Regex.

Inductive regex : Type :=
| Lit (c : ascii)
| Range (lo hi : ascii)
| Seq (r1 r2 : regex)
| Alt (r1 r2 : regex).

Definition in_range (lo hi c : ascii) : bool :=
  ((N_of_ascii lo <=? N_of_ascii c) && (N_of_ascii c <=? N_of_ascii hi))%N.

Fixpoint re_match {R : Type} (r : regex) (s : string)
    (k : string -> string -> option R) : option R :=
  match r with
  | Lit c =>
      match s with
      | String a s' => if Ascii.eqb a c then k (String a "") s' else None
      | EmptyString => None
      end
  | Range lo hi =>
      match s with
      | String a s' => if in_range lo hi a then k (String a "") s' else None
      | EmptyString => None
      end
  | Seq r1 r2 =>
      re_match r1 s (fun m1 s1 =>
      re_match r2 s1 (fun m2 s2 => k (m1 +:+ m2) s2))
  | Alt r1 r2 =>
      match re_match r1 s k with
      | Some x => Some x
      | None => re_match r2 s k
      end
  end.

(** [\d] *)
Definition digit : regex := Range "0" "9".

(** [%d]: [(?P<d>3[0-1]|[1-2]\d|0[1-9]|[1-9]| [1-9])] *)
Definition re_d : regex :=
  Alt (Seq (Lit "3") (Range "0" "1"))
 (Alt (Seq (Range "1" "2") digit)
 (Alt (Seq (Lit "0") (Range "1" "9"))
 (Alt (Range "1" "9")
      (Seq (Lit " ") (Range "1" "9"))))).

(** [%m]: [(?P<m>1[0-2]|0[1-9]|[1-9])] *)
Definition re_m : regex :=
  Alt (Seq (Lit "1") (Range "0" "2"))
 (Alt (Seq (Lit "0") (Range "1" "9"))
      (Range "1" "9")).

(** [%Y]: [(?P<Y>\d\d\d\d)] *)
Definition re_Y : regex := Seq digit (Seq digit (Seq digit digit)).

(** The expression for ['%d.%m.%Y'], with its three groups and the text
    left after the match. *)
Definition format_regex (s : string) : option (string * string * string * string) :=
  re_match re_d s (fun d s1 =>
  re_match (Lit ".") s1 (fun _ s2 =>
  re_match re_m s2 (fun m s3 =>
  re_match (Lit ".") s3 (fun _ s4 =>
  re_match re_Y s4 (fun Y rest => Some (d, m, Y, rest)))))).

End Regex.

(** * [strptime] and [strftime] *)

Definition digit_val (c : ascii) : option Z :=
  if Regex.in_range "0" "9" c then Some (Z.of_N (N_of_ascii c) - 48) else None.

Fixpoint int_digits (acc : Z) (s : string) : option Z :=
  match s with
  | EmptyString => Some acc
  | String c s' =>
      match digit_val c with
      | Some v => int_digits (10 * acc + v) s'
      | None => None
      end
  end.

Fixpoint lstrip (s : string) : string :=
  match s with
  | String c s' => if Ascii.is_space c then lstrip s' else s
  | EmptyString => EmptyString
  end.

(** [int(s)] on a group of the expression above: blanks before the digits
    are dropped (a group never ends in a blank, has no sign and no
    underscore). *)
Definition py_int (s : string) : option Z :=
  match lstrip s with
  | EmptyString => None
  | s' => int_digits 0 s'
  end.

(** [datetime.strptime(s, '%d.%m.%Y')]; [None] is [ValueError]: the text
    does not match, text is left over after the match, or the three numbers
    are no calendar date. *)
Definition strptime_dmY (s : string) : option datetime :=
  match Regex.format_regex s with
  | Some (d, m, Y, EmptyString) =>
      match py_int Y, py_int m, py_int d with
      | Some year, Some month, Some day =>
          if Calendar.check_date_fields year month day
          then Some (mk_datetime year month day)
          else None
      | _, _, _ => None
      end
  | _ => None
  end.

Definition digit_char (n : Z) : ascii := ascii_of_N (Z.to_N (48 + n)).

(** [%02d] of a number in [0..99] and [%04d] of one in [0..9999]. *)
Definition zpad2 (n : Z) : string :=
  String (digit_char (n / 10)) (String (digit_char (n mod 10)) "").
Definition zpad4 (n : Z) : string :=
  String (digit_char (n / 1000)) (String (digit_char (n / 100 mod 10))
    (String (digit_char (n / 10 mod 10)) (String (digit_char (n mod 10)) ""))).

(** [%Y] of a year in [1..9999].  CPython up to 3.12 leaves [%Y] to the C
    library, and glibc writes the year in decimal without padding: a year
    below 1000 comes out with fewer than four digits.  (CPython from 3.13
    on pads the year to four digits itself; from the year 1000 on the two
    agree.) *)
Definition year_text (y : Z) : string :=
  if y <? 10 then String (digit_char y) ""
  else if y <? 100 then zpad2 y
  else if y <? 1000 then String (digit_char (y / 100)) (zpad2 (y mod 100))
  else zpad4 y.

(** [d.strftime('%d.%m.%Y')] *)
Definition strftime_dmY (d : datetime) : string :=
  zpad2 (dt_day d) +:+ "." +:+ zpad2 (dt_month d) +:+ "." +:+ year_text (dt_year d).

(** * Schema validation

    The schema is the dictionary [person_schema] of the program; the
    validator below is jsonschema's for the keywords that dictionary uses. *)

Inductive json_type : Type :=
| T_object | T_array | T_string | T_number | T_boolean | T_null.

(** The schema of one property: its ["type"] and ["format"] keywords. *)
Record property_schema : Type := mk_property
  { p_type : json_type; p_format : option string }.

Record schema : Type := mk_schema
  { s_type : json_type;
    s_properties : list (string * property_schema);
    s_required : list string }.

Definition person_schema : schema :=
  {| s_type := T_object;
     s_properties :=
       [ ("name", mk_property T_string None);
         ("surname", mk_property T_string None);
         ("date_of_birth", mk_property T_string (Some "date"));
         ("zodiac_sign", mk_property T_string None) ];
     s_required := ["name"; "surname"; "date_of_birth"; "zodiac_sign"] |}.

(** jsonschema's type checker: ["object"] is [dict], ["string"] is [str],
    ["number"] is [int] or [float] but not [bool]. *)
Definition is_type (instance : json) (t : json_type) : bool :=
  match t, instance with
  | T_object, JObj _ => true
  | T_array, JArr _ => true
  | T_string, JStr _ => true
  | T_number, (JInt _ | JFloat _) => true
  | T_boolean, JBool _ => true
  | T_null, JNull => true
  | _, _ => false
  end.

(** One error of [iter_errors]: the keyword that failed and the path to
    the offending value. *)
Inductive validation_error : Type :=
| Not_of_type (path : list string) (expected : json_type)
| Not_a_format (path : list string) (format : string)
| Required_property (key : string).

(** A [FormatChecker]: does this value conform to the named format? *)
Definition format_checker : Type := json -> string -> bool.

(** The keywords of a property schema, in the order of the dictionary:
    ["type"], then ["format"].  ["format"] is checked only by a validator
    that was given a format checker. *)
Definition property_errors (fc : option format_checker) (path : list string)
    (p : property_schema) (instance : json) : list validation_error :=
  (if is_type instance (p_type p) then [] else [Not_of_type path (p_type p)])
  ++ match p_format p, fc with
     | Some f, Some check => if check instance f then [] else [Not_a_format path f]
     | _, _ => []
     end.

(** [Validator.iter_errors]: ["type"], ["properties"], ["required"].  The
    last two look at dictionaries only. *)
Definition iter_errors (fc : option format_checker) (sch : schema)
    (instance : json) : list validation_error :=
  (if is_type instance (s_type sch) then [] else [Not_of_type [] (s_type sch)])
  ++ match instance with
     | JObj m =>
         flat_map (fun kp : string * property_schema =>
                     match m !! kp.1 with
                     | Some v => property_errors fc [kp.1] kp.2 v
                     | None => []
                     end) (s_properties sch)
         ++ flat_map (fun k : string =>
                        match m !! k with
                        | Some _ => []
                        | None => [Required_property k]
                        end) (s_required sch)
     | _ => []
     end.

(** * The state of a run *)

Definition loc : Type := positive.

(** The mutable objects of the program: person dictionaries and lists of
    them. *)
Inductive pyobj : Type :=
| PyDict (d : gmap string pyval)
| PyList (items : list loc).

(** What the program prints, one constructor per message.  The text of
    a schema mismatch is that of one of the errors (jsonschema's best
    match); the constructor carries them all. *)
Inductive output : Type :=
| Msg_schema_mismatch (errors : list validation_error)
| Msg_invalid_person
| Msg_date_error (cnt : Z)
| Msg_selected (count : Z) (name surname : pyval)
| Msg_not_found.

Inductive exn : Type :=
| ValidationError (errors : list validation_error)
| ValueError
| TypeError
| AttributeError
| KeyError
| FileNotFoundError
| JSONDecodeError
| DanglingReference.

(** The heap of objects, the files by path, and the lines printed.  A
    file holds a JSON document, or text that is none ([None]): [json.dump]
    writes the document and [json.load] reads it back.

    The files are text files in UTF-8 that can be read and written, in a
    directory [data/] that exists.  What the operating system or the
    [json] module refuse otherwise is outside the embedding: a directory
    in place of the file, a path that cannot be written, bytes that are no
    UTF-8, a number of more than 4300 digits, nesting beyond the recursion
    limit, and text with a lone surrogate, which [json.dump] cannot
    encode. *)
Record state : Type := mk_state
  { heap : gmap loc pyobj;
    files : gmap string (option json);
    stdout : list output }.

Definition set_heap (f : gmap loc pyobj -> gmap loc pyobj) (st : state) : state :=
  {| heap := f (heap st); files := files st; stdout := stdout st |}.
Definition set_files (f : gmap string (option json) -> gmap string (option json))
    (st : state) : state :=
  {| heap := heap st; files := f (files st); stdout := stdout st |}.
Definition add_stdout (o : output) (st : state) : state :=
  {| heap := heap st; files := files st; stdout := stdout st ++ [o] |}.

Inductive result (A : Type) : Type :=
| Ok (a : A)
| Raised (e : exn).
Arguments Ok {A} a.
Arguments Raised {A} e.

(** A computation: it returns or raises, and leaves a state either way. *)
Definition M (A : Type) : Type := state -> result A * state.

Definition ret {A : Type} (a : A) : M A := fun st => (Ok a, st).

Definition bind {A B : Type} (m : M A) (f : A -> M B) : M B :=
  fun st =>
    match m st with
    | (Ok a, st') => f a st'
    | (Raised e, st') => (Raised e, st')
    end.

Definition raise {A : Type} (e : exn) : M A := fun st => (Raised e, st).

(** [try: body except ...: handler]; the handler re-raises what it does not
    catch. *)
Definition try_except {A : Type} (body : M A) (handler : exn -> M A) : M A :=
  fun st =>
    match body st with
    | (Ok a, st') => (Ok a, st')
    | (Raised e, st') => handler e st'
    end.

Declare Scope monad_scope.
Delimit Scope monad_scope with monad.
Notation "x <- m ;; k" := (bind m (fun x => k))
  (at level 100, m at next level, right associativity) : monad_scope.
Notation "m ;; k" := (bind m (fun _ => k))
  (at level 100, right associativity) : monad_scope.
Local Open Scope monad_scope.

Fixpoint for_each {A S : Type} (l : list A) (s : S) (body : A -> S -> M S) : M S :=
  match l with
  | [] => ret s
  | x :: l' => s' <- body x s ;; for_each l' s' body
  end.

(** A comprehension [[f(x) for x in xs]]. *)
Fixpoint map_M {A B : Type} (f : A -> M B) (xs : list A) {struct xs} : M (list B) :=
  match xs with
  | [] => ret []
  | x :: rest =>
      y <- f x ;;
      ys <- map_M f rest ;;
      ret (y :: ys)
  end.

Definition print (o : output) : M unit := fun st => (Ok tt, add_stdout o st).

(** ** Objects *)

Definition alloc (o : pyobj) : M loc :=
  fun st =>
    let l := fresh (dom (heap st)) in
    (Ok l, set_heap (insert l o) st).

Definition deref (l : loc) : M pyobj :=
  fun st =>
    match heap st !! l with
    | Some o => (Ok o, st)
    | None => (Raised DanglingReference, st)
    end.

Definition store (l : loc) (o : pyobj) : M unit :=
  fun st => (Ok tt, set_heap (insert l o) st).

(** The items of the list that a loop runs over, or that is sorted or
    written.  The program only passes lists that it has built.  With a
    dictionary in that place Python would run the loop over its keys; that
    case is not followed here: it raises [TypeError], and no property below
    is about it. *)
Definition list_items (l : loc) : M (list loc) :=
  o <- deref l ;;
  match o with
  | PyList items => ret items
  | PyDict _ => raise TypeError
  end.

(** The dictionary whose [get] is called: a list has no [get]. *)
Definition dict_of (l : loc) : M (gmap string pyval) :=
  o <- deref l ;;
  match o with
  | PyDict d => ret d
  | PyList _ => raise AttributeError
  end.

(** The dictionary that [{**x, ...}] unpacks: a list is no mapping. *)
Definition mapping_of (l : loc) : M (gmap string pyval) :=
  o <- deref l ;;
  match o with
  | PyDict d => ret d
  | PyList _ => raise TypeError
  end.

(** [l.append(x)] *)
Definition list_append (l x : loc) : M unit :=
  o <- deref l ;;
  match o with
  | PyList items => store l (PyList (items ++ [x]))
  | PyDict _ => raise AttributeError
  end.

(** [d.get(key, default)] *)
Definition dict_get (d : gmap string pyval) (key : string) (default : pyval) : pyval :=
  match d !! key with
  | Some v => v
  | None => default
  end.

(** ** Sorting

    [list.sort(key=...)] computes the key of every item and then sorts the
    items by comparing keys with [<]; it is stable.  The sorted, stable
    rearrangement of a list is unique, and inserting the items one by one,
    each before the first item whose key is not smaller, computes it. *)

Fixpoint insert_by_key {A : Type} (x : A * string) (l : list (A * string)) :
    list (A * string) :=
  match l with
  | [] => [x]
  | y :: l' => if String.leb x.2 y.2 then x :: l else y :: insert_by_key x l'
  end.

Definition stable_sort {A : Type} (l : list (A * string)) : list (A * string) :=
  foldr insert_by_key [] l.

Definition str_key {A : Type} (x : A * pyval) : option (A * string) :=
  match x.2 with
  | PJson (JStr s) => Some (x.1, s)
  | _ => None
  end.

(** The items in sorted order, or [None] for [TypeError].  The program
    sorts by [str] keys.  A list of at most one item is sorted without a
    comparison; otherwise a key that is no [str] ends the sort with
    [TypeError], which is what comparing [str] with anything else, or two
    [None] or two dictionaries, does (orderings among numbers or among
    lists are not part of this embedding). *)
Definition sorted_by_key {A : Type} (l : list (A * pyval)) : option (list A) :=
  match mapM str_key l with
  | Some l' => Some (stable_sort l').*1
  | None => if bool_decide (length l <= 1)%nat then Some l.*1 else None
  end.

(** [l.sort(key=key)].  When a comparison raises, CPython leaves the
    items in the order the sort had reached, which depends on how it
    works; that order is not followed here (the list is left as it was),
    and no property below is about the list after a failed sort. *)
Definition list_sort (l : loc) (key : loc -> M pyval) : M unit :=
  items <- list_items l ;;
  keys <- map_M key items ;;
  match sorted_by_key (zip items keys) with
  | Some items' => store l (PyList items')
  | None => raise TypeError
  end.

(** ** Files *)

Fixpoint ends_with_slash (s : string) : bool :=
  match s with
  | EmptyString => false
  | String c EmptyString => Ascii.eqb c "/"
  | String _ s' => ends_with_slash s'
  end.

(** [os.path.join(a, b)] of [posixpath]. *)
Definition os_path_join (a b : string) : string :=
  if String.prefix "/" b then b
  else if bool_decide (a = "") || ends_with_slash a then a +:+ b
  else a +:+ "/" +:+ b.

(** [json.load] of the file opened for reading, for the files described
    with [state]: there is no such file, or its text is no JSON document,
    or it is one. *)
Definition json_load (path : string) : M json :=
  fun st =>
    match files st !! path with
    | None => (Raised FileNotFoundError, st)
    | Some None => (Raised JSONDecodeError, st)
    | Some (Some doc) => (Ok doc, st)
    end.

(** [open(path, "w")] empties the file (a file described with [state]:
    it can be written). *)
Definition open_w (path : string) : M unit :=
  fun st => (Ok tt, set_files (insert path None) st).

Definition to_json (v : pyval) : option json :=
  match v with
  | PJson j => Some j
  | PDatetime _ => None
  end.

Definition dict_to_json (d : gmap string pyval) : option json :=
  if decide (map_Forall (fun _ v => is_Some (to_json v)) d)
  then Some (JObj (omap to_json d))
  else None.

(** [json.dump(obj, fout)] of a list of dictionaries.  A value that is not
    JSON (a [datetime]) raises [TypeError] and leaves the file cut short.
    (The texts are those described with [state]: the file can take them.) *)
Definition json_dump (obj : loc) (path : string) : M unit :=
  items <- list_items obj ;;
  dicts <- map_M dict_of items ;;
  match mapM dict_to_json dicts with
  | Some docs => fun st => (Ok tt, set_files (insert path (Some (JArr docs))) st)
  | None => raise TypeError
  end.

(** [iter(v)] for a loaded document: the items of a list, the keys of a
    dictionary, the characters of a string. *)
Definition py_iter (v : json) : M (list json) :=
  match v with
  | JArr l => ret l
  | JObj m => ret ((fun kv : string * json => JStr kv.1) <$> map_to_list m)
  | JStr s => ret ((fun c : ascii => JStr (String c "")) <$> String.list_ascii_of_string s)
  | _ => raise TypeError
  end.

(** [datetime.strptime(date_string, '%d.%m.%Y')] *)
Definition strptime (date_string : json) : M datetime :=
  match date_string with
  | JStr s =>
      match strptime_dmY s with
      | Some d => ret d
      | None => raise ValueError
      end
  | _ => raise TypeError
  end.

(** [v.strftime('%d.%m.%Y')] *)
Definition strftime (v : pyval) : M string :=
  match v with
  | PDatetime d => ret (strftime_dmY d)
  | PJson _ => raise AttributeError
  end.

(** [v.month] *)
Definition attr_month (v : pyval) : M Z :=
  match v with
  | PDatetime d => ret (dt_month d)
  | PJson _ => raise AttributeError
  end.

(** * The program *)

(** [jsonschema.validate(instance, schema)]: a validator without a format
    checker; it raises when [iter_errors] yields anything. *)
Definition jsonschema_validate (instance : json) (sch : schema) : M unit :=
  match iter_errors None sch instance with
  | [] => ret tt
  | e :: es => raise (ValidationError (e :: es))
  end.

Definition validate_person (person_data : json) (sch : schema) : M bool :=
  try_except
    (jsonschema_validate person_data sch ;; ret true)
    (fun e =>
       match e with
       | ValidationError errors => print (Msg_schema_mismatch errors) ;; ret false
       | _ => raise e
       end).

(** The dictionary literal of [add_person]. *)
Definition person_dict (name surname : string) (date_of_birth : datetime)
    (zodiac_sign : string) : gmap string pyval :=
  <["name" := py_str name]>
  (<["surname" := py_str surname]>
  (<["date_of_birth" := PDatetime date_of_birth]>
  (<["zodiac_sign" := py_str zodiac_sign]> ∅))).

Definition add_person (people : loc) (name surname date_of_birth zodiac_sign : string) :
    M loc :=
  date_of_birth <- strptime (JStr date_of_birth) ;;
  person <- alloc (PyDict (person_dict name surname date_of_birth zodiac_sign)) ;;
  list_append people person ;;
  list_sort people (fun item =>
    d <- dict_of item ;; ret (dict_get d "zodiac_sign" (py_str ""))) ;;
  ret people.

Definition select_people (people : loc) (month : Z) : M unit :=
  items <- list_items people ;;
  count <- for_each items 0 (fun person count =>
    d <- dict_of person ;;
    m <- attr_month (dict_get d "date_of_birth" py_None) ;;
    if m =? month then
      let count := count + 1 in
      print (Msg_selected count (dict_get d "name" (py_str ""))
                                (dict_get d "surname" (py_str ""))) ;;
      ret count
    else ret count) ;;
  if count =? 0 then print Msg_not_found else ret tt.

Definition save_people (file_name : string) (staff : loc) : M unit :=
  let file_path := os_path_join "data" file_name in
  items <- list_items staff ;;
  copies <- map_M (fun person =>
    d <- mapping_of person ;;
    text <- strftime (dict_get d "date_of_birth" py_None) ;;
    alloc (PyDict (<["date_of_birth" := py_str text]> d))) items ;;
  staff_formatted <- alloc (PyList copies) ;;
  open_w file_path ;;
  json_dump staff_formatted file_path.

(** The dictionary [json.load] built for an element is kept as the JSON
    value until the loop assigns to it; it enters the heap at that point. *)
Definition load_people (file_name : string) : M loc :=
  let file_path := os_path_join "data" file_name in
  staff_loaded <- json_load file_path ;;
  result_people <- alloc (PyList []) ;;
  elements <- py_iter staff_loaded ;;
  for_each elements 0 (fun person cnt =>
    let cnt := cnt + 1 in
    ok <- validate_person person person_schema ;;
    (if ok then
       try_except
         (match person with
          | JObj m =>
              match m !! "date_of_birth" with
              | Some text =>
                  date <- strptime text ;;
                  p <- alloc (PyDict (<["date_of_birth" := PDatetime date]> (PJson <$> m))) ;;
                  list_append result_people p
              | None => raise KeyError
              end
          | _ => raise TypeError
          end)
         (fun _ => print (Msg_date_error cnt))
     else print Msg_invalid_person) ;;
    ret cnt) ;;
  ret result_people.

(** The commands [add] and [select]. *)
Definition cli_add (filename name surname date_of_birth zodiac_sign : string) : M unit :=
  people <- load_people filename ;;
  people <- add_person people name surname date_of_birth zodiac_sign ;;
  save_people filename people.

Definition cli_select (filename : string) (month : Z) : M unit :=
  people <- load_people filename ;;
  select_people people month.

(** * What the description says, as definitions

    The definitions of this part are not taken from the program: they say
    in the words of its description what the program is expected to
    compute, and the theorems below compare the program with them. *)

(** A number written without padding. *)
Definition unpadded (n : Z) : string :=
  if n <? 10 then String (digit_char n) "" else zpad2 n.

Definition has_str (m : gmap string json) (key : string) : bool :=
  match m !! key with
  | Some (JStr _) => true
  | _ => false
  end.

(** An object that has the four keys, each with a string. *)
Definition conforms (j : json) : bool :=
  match j with
  | JObj m =>
      has_str m "name" && has_str m "surname"
      && has_str m "date_of_birth" && has_str m "zodiac_sign"
  | _ => false
  end.

(** The keys of the schema. *)
Definition schema_key (k : string) : Prop :=
  k = "name" \/ k = "surname" \/ k = "date_of_birth" \/ k = "zodiac_sign".

(** The text of the date of an element, parsed. *)
Definition parsed_date (j : json) : option datetime :=
  match j with
  | JObj m =>
      match m !! "date_of_birth" with
      | Some (JStr s) => strptime_dmY s
      | _ => None
      end
  | _ => None
  end.

(** The record that loading keeps for an element: the element conforms
    and its date parses; the record is the element with the date parsed. *)
Definition load_record (j : json) : option (gmap string pyval) :=
  match j with
  | JObj m =>
      if conforms j then
        match parsed_date j with
        | Some d => Some (<["date_of_birth" := PDatetime d]> (PJson <$> m))
        | None => None
        end
      else None
  | _ => None
  end.

(** What loading prints for the element at position [cnt], counted
    from 1. *)
Definition load_diagnostics (cnt : Z) (j : json) : list output :=
  if conforms j then
    match parsed_date j with
    | Some _ => []
    | None => [Msg_date_error cnt]
    end
  else [Msg_schema_mismatch (iter_errors None person_schema j); Msg_invalid_person].

(** The object that saving writes for a record: the date as text. *)
Definition saved_record (d : gmap string pyval) : option json :=
  match d !! "date_of_birth" with
  | Some (PDatetime dt) =>
      dict_to_json (<["date_of_birth" := py_str (strftime_dmY dt)]> d)
  | _ => None
  end.

(** A record as loading and adding build it: a date under
    ["date_of_birth"], strings under the other three keys, and JSON values
    under any further key. *)
Record person_record (d : gmap string pyval) : Prop := mk_person_record
  { pr_name : exists s, d !! "name" = Some (py_str s);
    pr_surname : exists s, d !! "surname" = Some (py_str s);
    pr_zodiac : exists s, d !! "zodiac_sign" = Some (py_str s);
    pr_date : exists dt, d !! "date_of_birth" = Some (PDatetime dt) /\ Calendar.valid dt;
    pr_json : forall k v, d !! k = Some v -> k <> "date_of_birth" -> exists j, v = PJson j }.

(** The year of the record's date has four digits. *)
Definition four_digit_year (d : gmap string pyval) : Prop :=
  exists dt, d !! "date_of_birth" = Some (PDatetime dt) /\ 1000 <= dt_year dt.

(** The list object at [l] holds references to these dictionaries. *)
Definition holds_records (h : gmap loc pyobj) (l : loc)
    (ds : list (gmap string pyval)) : Prop :=
  exists items, h !! l = Some (PyList items)
    /\ Forall2 (fun r d => h !! r = Some (PyDict d)) items ds.

(** The key the program sorts by. *)
Definition zodiac_of (d : gmap string pyval) : pyval :=
  dict_get d "zodiac_sign" (py_str "").

(** The item at [l] is a dictionary whose sort key is the string [z]. *)
Definition has_zodiac (h : gmap loc pyobj) (l : loc) (z : string) : Prop :=
  exists d, h !! l = Some (PyDict d) /\ zodiac_of d = py_str z.

(** The month of birth of a record is [month]. *)
Definition born_in (month : Z) (d : gmap string pyval) : bool :=
  match d !! "date_of_birth" with
  | Some (PDatetime dt) => dt_month dt =? month
  | _ => false
  end.

(** The line printed for the [i]-th match, counted from 0. *)
Definition selected_line (i : nat) (d : gmap string pyval) : output :=
  Msg_selected (Z.of_nat i + 1) (dict_get d "name" (py_str ""))
                               (dict_get d "surname" (py_str "")).

(** The order of the keys: [str] compares by code points. *)
Definition key_le {A : Type} (x y : A * string) : Prop := String.le x.2 y.2.

(** The items with the key [z], in the order of the list. *)
Definition with_key {A : Type} (z : string) (l : list (A * string)) : list (A * string) :=
  filter (fun y => y.2 = z) l.

(** The state after printing the lines [os]. *)
Definition add_stdouts (os : list output) (st : state) : state :=
  {| heap := heap st; files := files st; stdout := stdout st ++ os |}.

(** What selecting prints: the matches numbered from 1, or the notice. *)
Definition select_output (month : Z) (ds : list (gmap string pyval)) : list output :=
  match filter (fun d => born_in month d = true) ds with
  | [] => [Msg_not_found]
  | matches => imap selected_line matches
  end.

(** What loading prints for the elements of the array. *)
Definition load_output (elems : list json) : list output :=
  concat (imap (fun i j => load_diagnostics (Z.of_nat i + 1) j) elems).

(** A computation that leaves every object of the heap as it was: it may
    only add objects. *)
Definition keeps_heap {A : Type} (m : M A) : Prop :=
  forall st, heap st ⊆ heap (m st).2.

(** The text of a date as it may be given: the day with two digits or
    without a leading zero, the month likewise and on its own, and the
    year with four digits. *)
Definition date_text (day_padded month_padded : bool) (y m d : Z) : string :=
  (if day_padded then zpad2 d else unpadded d) +:+ "."
  +:+ (if month_padded then zpad2 m else unpadded m) +:+ "." +:+ zpad4 y.

(** The text of a date as it is expected in the file: the day and the
    month with two digits, the year in decimal.  The digits are those of
    the decimal printer [pretty] of the library, so that the text is told
    apart from the way [strftime_dmY] computes it. *)
Definition two_digits (n : Z) : string :=
  if n <? 10 then "0" +:+ pretty n else pretty n.
Definition saved_date_text (y m d : Z) : string :=
  two_digits d +:+ "." +:+ two_digits m +:+ "." +:+ pretty y.


(** The element was kept by loading. *)
Definition accepted (j : json) : Prop := is_Some (load_record j).

Global Instance accepted_dec (j : json) : Decision (accepted j).
Proof. unfold accepted. apply _. Defined.

(** The object that saving writes for the dictionary of [add_person]. *)
Definition person_json (name surname text zodiac_sign : string) : gmap string json :=
  <["name" := JStr name]>
  (<["surname" := JStr surname]>
  (<["date_of_birth" := JStr text]>
  (<["zodiac_sign" := JStr zodiac_sign]> ∅))).

(** The record [rec] in memory, and the object [doc] in the file, agree
    with the element [j] on every key but the date. *)
Definition same_but_date_rec (j : json) (rec : gmap string pyval) : Prop :=
  exists m, j = JObj m
    /\ forall k, k <> "date_of_birth" -> rec !! k = PJson <$> (m !! k).
Definition same_but_date_doc (j doc : json) : Prop :=
  exists m o, j = JObj m /\ doc = JObj o
    /\ forall k, k <> "date_of_birth" -> o !! k = m !! k.

(** * States to try the theorems on *)

Definition empty_state : state := mk_state ∅ ∅ [].

Definition anna : gmap string pyval :=
  person_dict "Anna" "Ivanova" (mk_datetime 1990 3 15) "Pisces".
Definition boris : gmap string pyval :=
  person_dict "Boris" "Petrov" (mk_datetime 1985 1 1) "Aquarius".

(** The list at 1 holds Boris (at 2) and Anna (at 3). *)
Definition two_people : state :=
  mk_state {[ 1%positive := PyList [2%positive; 3%positive];
              2%positive := PyDict boris;
              3%positive := PyDict anna ]} ∅ [].



Definition anna_json : gmap string json :=
  {[ "name" := JStr "Anna"; "surname" := JStr "Ivanova";
     "date_of_birth" := JStr "15.3.1990"; "zodiac_sign" := JStr "Pisces";
     "nickname" := JStr "Anya" ]}.

(** An element to keep, one without a date, one that is no object and
    one whose date is no date. *)
Definition file_elems : list json :=
  [ JObj anna_json;
    JObj (delete "date_of_birth" anna_json);
    JInt 7;
    JObj (<["date_of_birth" := JStr "1990-03-15"]> anna_json) ].

Definition people_file : state :=
  mk_state ∅ {[ "data/people.json" := Some (JArr file_elems) ]} [].

(** A file with one element, which has the four keys and a fifth, and a
    date in another format. *)
Definition iso_dated : gmap string json :=
  <["date_of_birth" := JStr "1990-03-15"]> anna_json.
Definition iso_file : state :=
  mk_state ∅ {[ "data/people.json" := Some (JArr [JObj iso_dated]) ]} [].

(** * More of what the program is expected to compute *)

(** The elements that the loop of [load_people] goes through: those of an
    array, the keys of an object, the characters of a string; [None] for a
    document that cannot be iterated. *)
Definition iter_elems (doc : json) : option (list json) :=
  match doc with
  | JArr l => Some l
  | JObj m => Some ((fun kv : string * json => JStr kv.1) <$> map_to_list m)
  | JStr s => Some ((fun c : ascii => JStr (String c "")) <$> String.list_ascii_of_string s)
  | _ => None
  end.

(** The two lines printed for an element that is no object. *)
Definition not_an_object : list output :=
  [Msg_schema_mismatch [Not_of_type [] T_object]; Msg_invalid_person].

(** The sort key of a record, as text. *)
Definition zodiac_text (d : gmap string pyval) : string :=
  match zodiac_of d with
  | PJson (JStr s) => s
  | _ => ""
  end.

(** The records in the order [add_person] leaves them: sorted by the key,
    ties in the order they had. *)
Definition sort_records (ds : list (gmap string pyval)) : list (gmap string pyval) :=
  (stable_sort ((fun d => (d, zodiac_text d)) <$> ds)).*1.

(** The records are in the order of their keys. *)
Definition sorted_records (ds : list (gmap string pyval)) : Prop :=
  StronglySorted (fun d d' => String.le (zodiac_text d) (zodiac_text d')) ds.


(** The copy of a record that [save_people] makes, with the date as text;
    there is none for a record without a date. *)
Definition formatted (d : gmap string pyval) : option (gmap string pyval) :=
  match d !! "date_of_birth" with
  | Some (PDatetime dt) => Some (<["date_of_birth" := py_str (strftime_dmY dt)]> d)
  | _ => None
  end.

(** * The table

    [list_people] prints lines of its own kind.  The screen holds these
    and the messages of the functions above, in the order they were
    printed. *)

Inductive line : Type :=
| Message (o : output)
  (** the row of dashes, ['+-{}-+-{}-+-{}-+-{}-+-{}-+'] *)
| Rule
  (** the five column titles, centred *)
| Header
  (** ['| {:^4} | {:<20} | {:<20} | {:<15} | {:<13} |'] of these values *)
| Row (idx : Z) (name surname zodiac_sign : pyval) (birth_date_str : string).

Record console : Type := mk_console
  { mem : gmap loc pyobj;
    disk : gmap string (option json);
    screen : list line }.

Definition add_lines (ls : list line) (c : console) : console :=
  {| mem := mem c; disk := disk c; screen := screen c ++ ls |}.

(** Computations that print to the screen. *)
Definition T (A : Type) : Type := console -> result A * console.

Definition ret_T {A : Type} (a : A) : T A := fun c => (Ok a, c).

Definition bind_T {A B : Type} (m : T A) (f : A -> T B) : T B :=
  fun c =>
    match m c with
    | (Ok a, c') => f a c'
    | (Raised e, c') => (Raised e, c')
    end.

Definition raise_T {A : Type} (e : exn) : T A := fun c => (Raised e, c).

Definition show (l : line) : T unit := fun c => (Ok tt, add_lines [l] c).

(** A computation of the functions above, run on the memory and the files
    of the console: what it prints goes to the screen. *)
Definition as_state (c : console) : state := mk_state (mem c) (disk c) [].

Definition lift {A : Type} (m : M A) : T A :=
  fun c =>
    let (r, st) := m (as_state c) in
    (r, {| mem := heap st; disk := files st;
           screen := screen c ++ (Message <$> stdout st) |}).

Declare Scope table_scope.
Delimit Scope table_scope with table.
Notation "x <- m ;; k" := (bind_T m (fun x => k))
  (at level 100, m at next level, right associativity) : table_scope.
Notation "m ;; k" := (bind_T m (fun _ => k))
  (at level 100, right associativity) : table_scope.

(** [for idx, x in enumerate(l, idx)] *)
Fixpoint for_enumerate {A : Type} (l : list A) (idx : Z) (body : Z -> A -> T unit) :
    T unit :=
  match l with
  | [] => ret_T tt
  | x :: l' => (body idx x ;; for_enumerate l' (idx + 1) body)%table
  end.

(** Whether [format] takes the value with an alignment and a width, as in
    ['{:<20}']: a [str] and the numbers do, and a [datetime] (which gives
    the specification back); [None], a list and a dictionary raise
    [TypeError]. *)
Definition formattable (v : pyval) : bool :=
  match v with
  | PJson (JNull | JArr _ | JObj _) => false
  | _ => true
  end.

Definition format_row (idx : Z) (name surname zodiac_sign : pyval)
    (birth_date_str : string) : T line :=
  if formattable name && formattable surname && formattable zodiac_sign
  then ret_T (Row idx name surname zodiac_sign birth_date_str)
  else raise_T TypeError.

Definition list_people (people : loc) : T unit :=
  (show Rule ;;
   show Header ;;
   show Rule ;;
   items <- lift (list_items people) ;;
   for_enumerate items 1 (fun idx person =>
     d <- lift (dict_of person) ;;
     birth_date_str <- lift (strftime (dict_get d "date_of_birth" py_None)) ;;
     row <- format_row idx (dict_get d "name" (py_str ""))
                           (dict_get d "surname" (py_str ""))
                           (dict_get d "zodiac_sign" (py_str ""))
                           birth_date_str ;;
     show row) ;;
   show Rule)%table.

(** The command [list]. *)
Definition cli_list (filename : string) : T unit :=
  (people <- lift (load_people filename) ;;
   list_people people)%table.

(** ** The text of the lines *)

(** [c * n] *)
Fixpoint str_mul (c : ascii) (n : nat) : string :=
  match n with
  | O => ""
  | S n' => String c (str_mul c n')
  end.

(** [format(s, '<w')] and [format(s, '^w')] of a text: the text is never
    cut; of the blanks that centring adds, the smaller half goes to the
    left. *)
Definition fmt_left (w : nat) (s : string) : string :=
  s +:+ str_mul " " (w - String.length s).
Definition fmt_center (w : nat) (s : string) : string :=
  let pad := (w - String.length s)%nat in
  str_mul " " (pad / 2) +:+ s +:+ str_mul " " (pad - pad / 2).

Definition rule_text : string :=
  "+-" +:+ str_mul "-" 4 +:+ "-+-" +:+ str_mul "-" 20 +:+ "-+-" +:+ str_mul "-" 20
  +:+ "-+-" +:+ str_mul "-" 15 +:+ "-+-" +:+ str_mul "-" 13 +:+ "-+".

Definition row_text (idx : Z) (name surname zodiac_sign birth_date_str : string) :
    string :=
  "| " +:+ fmt_center 4 (pretty idx) +:+ " | " +:+ fmt_left 20 name
  +:+ " | " +:+ fmt_left 20 surname +:+ " | " +:+ fmt_left 15 zodiac_sign
  +:+ " | " +:+ fmt_left 13 birth_date_str +:+ " |".

(** The text of a line, for the rule and for the rows of texts. *)
Definition text_of (l : line) : option string :=
  match l with
  | Rule => Some rule_text
  | Row idx (PJson (JStr name)) (PJson (JStr surname)) (PJson (JStr zodiac_sign))
        birth_date_str =>
      Some (row_text idx name surname zodiac_sign birth_date_str)
  | _ => None
  end.

(** ** What the table is expected to hold *)

Definition birth_date_text (d : gmap string pyval) : string :=
  match d !! "date_of_birth" with
  | Some (PDatetime dt) => strftime_dmY dt
  | _ => ""
  end.

(** The row of the [i]-th record, counted from 0. *)
Definition row_of (i : nat) (d : gmap string pyval) : line :=
  Row (Z.of_nat i + 1) (dict_get d "name" (py_str ""))
      (dict_get d "surname" (py_str "")) (dict_get d "zodiac_sign" (py_str ""))
      (birth_date_text d).

Definition table (ds : list (gmap string pyval)) : list line :=
  Rule :: Header :: Rule :: imap row_of ds ++ [Rule].

(** What stops [list_people] at a record: a date that is no [datetime]
    ([AttributeError]), or else a value that [format] does not take
    ([TypeError]). *)
Definition row_error (d : gmap string pyval) : option exn :=
  match d !! "date_of_birth" with
  | Some (PDatetime _) =>
      if formattable (dict_get d "name" (py_str ""))
         && formattable (dict_get d "surname" (py_str ""))
         && formattable (dict_get d "zodiac_sign" (py_str ""))
      then None else Some TypeError
  | _ => Some AttributeError
  end.

(** A computation that only prints: it leaves the memory and the files
    as they are, whether it returns or raises. *)
Definition only_prints {A : Type} (m : T A) : Prop :=
  forall c, exists r ls, m c = (r, add_lines ls c).

(** A computation of the functions above that only looks at the state. *)
Definition only_reads {A : Type} (m : M A) : Prop :=
  forall st, exists r, m st = (r, st).

(** * Tactics *)

(** Case analysis on an integer known to lie in a short range. *)
Ltac cases_of n lo len :=
  let Hn := fresh "Hn" in
  let l := eval vm_compute in (Z.of_nat <$> seq lo len) in
  assert (Hn : n ∈ l) by (set_unfold; lia);
  set_unfold in Hn;
  repeat (destruct Hn as [-> | Hn]); [..| try done].

Ltac div_lia := Z.to_euclidean_division_equations; lia.

Ltac text_simpl := cbn; cbv [String.append]; cbn.

(** * The library calls on examples *)

Example strptime_padded_example :
  strptime_dmY "15.03.1990" = Some (mk_datetime 1990 3 15).
Proof. reflexivity. Qed.

Example strptime_unpadded_example :
  strptime_dmY "1.1.1985" = Some (mk_datetime 1985 1 1).
Proof. reflexivity. Qed.

Example strptime_blank_day_example :
  strptime_dmY " 5.03.1990" = Some (mk_datetime 1990 3 5).
Proof. reflexivity. Qed.

Example strptime_iso_text_example : strptime_dmY "1990-03-15" = None.
Proof. reflexivity. Qed.

Example strptime_no_such_day_example : strptime_dmY "31.02.2000" = None.
Proof. reflexivity. Qed.

Example strptime_leap_day_example :
  strptime_dmY "29.02.2000" = Some (mk_datetime 2000 2 29)
  /\ strptime_dmY "29.02.1900" = None.
Proof. split; reflexivity. Qed.

Example strptime_text_left_example : strptime_dmY "15.03.19900" = None.
Proof. reflexivity. Qed.

Example strptime_year_zero_example : strptime_dmY "01.01.0000" = None.
Proof. reflexivity. Qed.

Example strftime_pads_example :
  strftime_dmY (mk_datetime 1985 1 1) = "01.01.1985".
Proof. reflexivity. Qed.

(** * Dates: parsing and printing *)

Lemma digit_char_in_range (n : Z) :
  0 <= n <= 9 -> Regex.in_range "0" "9" (digit_char n) = true.
Proof. intros H. cases_of n 0%nat 10%nat; reflexivity. Qed.

Lemma digit_char_val (n : Z) : 0 <= n <= 9 -> digit_val (digit_char n) = Some n.
Proof. intros H. cases_of n 0%nat 10%nat; reflexivity. Qed.

Lemma digit_char_not_space (n : Z) :
  0 <= n <= 9 -> Ascii.is_space (digit_char n) = false.
Proof. intros H. cases_of n 0%nat 10%nat; reflexivity. Qed.

Lemma re_Y_zpad4 {R : Type} (y : Z) (rest : string) (k : string -> string -> option R) :
  0 <= y <= 9999 ->
  Regex.re_match Regex.re_Y (zpad4 y +:+ rest) k = k (zpad4 y) rest.
Proof.
  intros H. unfold zpad4, Regex.re_Y, Regex.digit. text_simpl.
  rewrite !digit_char_in_range by div_lia. reflexivity.
Qed.

Lemma py_int_zpad4 (y : Z) : 0 <= y <= 9999 -> py_int (zpad4 y) = Some y.
Proof.
  intros H. unfold py_int, zpad4. cbn.
  rewrite digit_char_not_space by div_lia. cbn.
  rewrite !digit_char_val by div_lia. cbn. f_equal. div_lia.
Qed.

Lemma py_int_zpad2 (n : Z) : 0 <= n <= 99 -> py_int (zpad2 n) = Some n.
Proof.
  intros H. unfold py_int, zpad2. cbn.
  rewrite digit_char_not_space by div_lia. cbn.
  rewrite !digit_char_val by div_lia. cbn. f_equal. div_lia.
Qed.

Lemma py_int_unpadded (n : Z) : 0 <= n <= 99 -> py_int (unpadded n) = Some n.
Proof.
  intros H. unfold unpadded. destruct (Z.ltb_spec n 10).
  - unfold py_int. cbn. rewrite digit_char_not_space by lia.
    cbn. by rewrite digit_char_val by lia.
  - by apply py_int_zpad2.
Qed.

(** The day group, followed by the dot of the format. *)
Lemma re_d_zpad2 {R : Type} (d : Z) (rest : string) (k : string -> string -> option R) :
  1 <= d <= 31 ->
  Regex.re_match Regex.re_d (zpad2 d +:+ String "." rest)
    (fun dd s1 => Regex.re_match (Regex.Lit ".") s1 (fun _ s2 => k dd s2))
  = k (zpad2 d) rest.
Proof.
  intros H. cases_of d 1%nat 31%nat; unfold unpadded, zpad2; text_simpl; by destruct (k _ rest).
Qed.

Lemma re_d_unpadded {R : Type} (d : Z) (rest : string) (k : string -> string -> option R) :
  1 <= d <= 31 ->
  Regex.re_match Regex.re_d (unpadded d +:+ String "." rest)
    (fun dd s1 => Regex.re_match (Regex.Lit ".") s1 (fun _ s2 => k dd s2))
  = k (unpadded d) rest.
Proof.
  intros H. cases_of d 1%nat 31%nat; unfold unpadded, zpad2; text_simpl; by destruct (k _ rest).
Qed.

Lemma re_m_zpad2 {R : Type} (m : Z) (rest : string) (k : string -> string -> option R) :
  1 <= m <= 12 ->
  Regex.re_match Regex.re_m (zpad2 m +:+ String "." rest)
    (fun mm s1 => Regex.re_match (Regex.Lit ".") s1 (fun _ s2 => k mm s2))
  = k (zpad2 m) rest.
Proof.
  intros H. cases_of m 1%nat 12%nat; unfold unpadded, zpad2; text_simpl; by destruct (k _ rest).
Qed.

Lemma re_m_unpadded {R : Type} (m : Z) (rest : string) (k : string -> string -> option R) :
  1 <= m <= 12 ->
  Regex.re_match Regex.re_m (unpadded m +:+ String "." rest)
    (fun mm s1 => Regex.re_match (Regex.Lit ".") s1 (fun _ s2 => k mm s2))
  = k (unpadded m) rest.
Proof.
  intros H. cases_of m 1%nat 12%nat; unfold unpadded, zpad2; text_simpl; by destruct (k _ rest).
Qed.

Lemma format_regex_padded (y m d : Z) :
  1 <= y <= 9999 -> 1 <= m <= 12 -> 1 <= d <= 31 ->
  Regex.format_regex (zpad2 d +:+ "." +:+ zpad2 m +:+ "." +:+ zpad4 y)
  = Some (zpad2 d, zpad2 m, zpad4 y, "").
Proof.
  intros Hy Hm Hd. unfold Regex.format_regex.
  change (zpad2 d +:+ "." +:+ zpad2 m +:+ "." +:+ zpad4 y)
    with (zpad2 d +:+ String "." (zpad2 m +:+ String "." (zpad4 y +:+ ""))).
  etrans; [by apply (re_d_zpad2 d)|].
  etrans; [by apply (re_m_zpad2 m)|].
  by apply re_Y_zpad4; lia.
Qed.

Lemma format_regex_unpadded (y m d : Z) :
  1 <= y <= 9999 -> 1 <= m <= 12 -> 1 <= d <= 31 ->
  Regex.format_regex (unpadded d +:+ "." +:+ unpadded m +:+ "." +:+ zpad4 y)
  = Some (unpadded d, unpadded m, zpad4 y, "").
Proof.
  intros Hy Hm Hd. unfold Regex.format_regex.
  change (unpadded d +:+ "." +:+ unpadded m +:+ "." +:+ zpad4 y)
    with (unpadded d +:+ String "." (unpadded m +:+ String "." (zpad4 y +:+ ""))).
  etrans; [by apply (re_d_unpadded d)|].
  etrans; [by apply (re_m_unpadded m)|].
  by apply re_Y_zpad4; lia.
Qed.

Lemma check_date_fields_bounds (y m d : Z) :
  Calendar.check_date_fields y m d = true ->
  1 <= y <= 9999 /\ 1 <= m <= 12 /\ 1 <= d <= 31.
Proof.
  unfold Calendar.check_date_fields, Calendar.days_in_month. intros Hv.
  destruct ((m =? 2) && Calendar.is_leap y); [lia|].
  assert (Hm : 1 <= m <= 12) by lia.
  cases_of m 1%nat 12%nat; lia.
Qed.

Lemma year_text_zpad4 (y : Z) : 1000 <= y -> year_text y = zpad4 y.
Proof.
  intros Hy. unfold year_text.
  destruct (Z.ltb_spec y 10); [lia|]. destruct (Z.ltb_spec y 100); [lia|].
  destruct (Z.ltb_spec y 1000); [lia|]. done.
Qed.

(** A date whose year has four digits is read back from its text. *)
Lemma strptime_strftime (d : datetime) :
  Calendar.valid d -> 1000 <= dt_year d -> strptime_dmY (strftime_dmY d) = Some d.
Proof.
  destruct d as [y m d]. unfold Calendar.valid. cbn. intros Hv Hy4.
  destruct (check_date_fields_bounds _ _ _ Hv) as (Hy & Hm & Hd).
  unfold strptime_dmY, strftime_dmY. cbn [dt_day dt_month dt_year].
  rewrite year_text_zpad4 by done.
  rewrite format_regex_padded by done.
  rewrite py_int_zpad4, !py_int_zpad2 by lia.
  by rewrite Hv.
Qed.








Lemma strptime_unpadded (y m d : Z) :
  Calendar.check_date_fields y m d = true ->
  strptime_dmY (unpadded d +:+ "." +:+ unpadded m +:+ "." +:+ zpad4 y)
  = Some (mk_datetime y m d).
Proof.
  intros Hv.
  destruct (check_date_fields_bounds _ _ _ Hv) as (Hy & Hm & Hd).
  unfold strptime_dmY.
  rewrite format_regex_unpadded by done.
  rewrite py_int_zpad4, !py_int_unpadded by lia.
  by rewrite Hv.
Qed.

Lemma strptime_valid (s : string) (d : datetime) :
  strptime_dmY s = Some d -> Calendar.valid d.
Proof.
  unfold strptime_dmY, Calendar.valid. intros H.
  repeat case_match; simplify_eq. done.
Qed.

(** * Validation *)

Lemma validate_person_run (j : json) (sch : schema) (st : state) :
  validate_person j sch st =
  match iter_errors None sch j with
  | [] => (Ok true, st)
  | e :: es => (Ok false, add_stdout (Msg_schema_mismatch (e :: es)) st)
  end.
Proof.
  unfold validate_person, try_except, bind, jsonschema_validate.
  by destruct (iter_errors None sch j).
Qed.

Lemma iter_errors_conforms (j : json) :
  iter_errors None person_schema j = [] <-> conforms j = true.
Proof.
  destruct j as [| | | | |l|m]; try (cbn; split; done).
  unfold conforms, has_str, iter_errors, property_errors, person_schema.
  cbn [is_type s_type s_properties s_required flat_map app fst snd p_type p_format].
  generalize (m !! "name") (m !! "surname") (m !! "date_of_birth") (m !! "zodiac_sign").
  intros a b c d. rewrite !app_nil.
  destruct a as [[]|]; try (cbn; split; [intros H; decompose [and] H; discriminate|discriminate]).
  destruct b as [[]|]; try (cbn; split; [intros H; decompose [and] H; discriminate|discriminate]).
  destruct c as [[]|]; try (cbn; split; [intros H; decompose [and] H; discriminate|discriminate]).
  destruct d as [[]|]; try (cbn; split; [intros H; decompose [and] H; discriminate|discriminate]).
  cbn. split; [done|]. by intros _.
Qed.

Lemma validate_person_conforms (j : json) (st : state) :
  validate_person j person_schema st =
  if conforms j then (Ok true, st)
  else (Ok false, add_stdout (Msg_schema_mismatch (iter_errors None person_schema j)) st).
Proof.
  rewrite validate_person_run.
  destruct (conforms j) eqn:Hc.
  - apply iter_errors_conforms in Hc. by rewrite Hc.
  - destruct (iter_errors None person_schema j) eqn:He; [|done].
    apply iter_errors_conforms in He. congruence.
Qed.

Lemma has_str_Some (m : gmap string json) (k : string) :
  has_str m k = true <-> exists s, m !! k = Some (JStr s).
Proof.
  unfold has_str. destruct (m !! k) as [[]|]; split; try done; try by intros [? ?].
  by eexists.
Qed.

Lemma conforms_fields (j : json) :
  conforms j = true <->
  exists m n s t z, j = JObj m /\ m !! "name" = Some (JStr n)
    /\ m !! "surname" = Some (JStr s) /\ m !! "date_of_birth" = Some (JStr t)
    /\ m !! "zodiac_sign" = Some (JStr z).
Proof.
  split.
  - destruct j as [| | | | | |m]; try done. unfold conforms.
    rewrite !andb_true_iff, !has_str_Some.
    intros [[[[n ?] [s ?]] [t ?]] [z ?]]. by exists m, n, s, t, z.
  - intros (m & n & s & t & z & -> & H1 & H2 & H3 & H4).
    unfold conforms, has_str. by rewrite H1, H2, H3, H4.
Qed.

(** * Sorting *)

Section stable_sort.
Context {A : Type}.
Implicit Types (x y : A * string) (l : list (A * string)) (z : string).

Lemma leb_le x y : String.leb x.2 y.2 = true <-> key_le x y.
Proof. unfold key_le, String.le. by rewrite Is_true_true. Qed.

Lemma not_leb_le x y : String.leb x.2 y.2 = false -> key_le y x /\ x.2 <> y.2.
Proof.
  intros H. split.
  - destruct (String.leb_total x.2 y.2) as [H'|H']; [congruence|].
    by apply leb_le.
  - intros E. rewrite E in H.
    assert (String.le y.2 y.2) as H' by done.
    apply Is_true_true in H'. congruence.
Qed.

Lemma insert_by_key_perm x l : insert_by_key x l ≡ₚ x :: l.
Proof.
  induction l as [|y l IH]; cbn; [done|].
  destruct (String.leb x.2 y.2); [done|].
  rewrite IH. apply Permutation_swap.
Qed.

Lemma stable_sort_perm l : stable_sort l ≡ₚ l.
Proof.
  induction l as [|x l IH]; cbn; [done|].
  rewrite insert_by_key_perm. by f_equiv.
Qed.

Lemma insert_by_key_sorted x l :
  StronglySorted key_le l -> StronglySorted key_le (insert_by_key x l).
Proof.
  induction l as [|y l IH]; cbn; intros Hs.
  - repeat constructor.
  - apply StronglySorted_inv in Hs as [Hs Hy].
    destruct (String.leb x.2 y.2) eqn:E.
    + apply leb_le in E. constructor; [by constructor|].
      constructor; [done|].
      eapply Forall_impl; [exact Hy|]. intros w Hw.
      unfold key_le in *. by etrans.
    + apply not_leb_le in E as [E _]. constructor; [by apply IH|].
      rewrite insert_by_key_perm. by constructor.
Qed.

Lemma stable_sort_sorted l : StronglySorted key_le (stable_sort l).
Proof.
  induction l as [|x l IH]; cbn; [constructor|].
  by apply insert_by_key_sorted.
Qed.

Lemma insert_by_key_with_key z x l :
  with_key z (insert_by_key x l) = with_key z (x :: l).
Proof.
  unfold with_key. induction l as [|y l IH]; cbn; [done|].
  destruct (String.leb x.2 y.2) eqn:E; [done|].
  apply not_leb_le in E as [_ E].
  rewrite filter_cons, IH, !filter_cons.
  repeat case_decide; (done || congruence).
Qed.

Lemma stable_sort_with_key z l : with_key z (stable_sort l) = with_key z l.
Proof.
  induction l as [|x l IH]; [done|].
  change (stable_sort (x :: l)) with (insert_by_key x (stable_sort l)).
  rewrite insert_by_key_with_key. unfold with_key in *.
  by rewrite !filter_cons, IH.
Qed.

(** Of the rearrangements of a list, one is sorted and stable. *)
Lemma sorted_stable_unique l1 l2 :
  StronglySorted key_le l1 -> StronglySorted key_le l2 ->
  (forall z, with_key z l1 = with_key z l2) -> l1 = l2.
Proof.
  assert (Hhd : forall a l b l', StronglySorted key_le (b :: l') ->
                  with_key a.2 (a :: l) = with_key a.2 (b :: l') -> key_le b a).
  { intros a l b l' Hs Hf.
    assert (Ha : a ∈ with_key a.2 (b :: l')).
    { rewrite <- Hf. unfold with_key. rewrite filter_cons.
      rewrite decide_True by done. set_solver. }
    apply list_elem_of_filter in Ha as [_ Ha].
    apply StronglySorted_inv in Hs as [_ Hb].
    apply elem_of_cons in Ha as [->|Ha]; [apply (reflexivity (R:=String.le))|].
    by eapply Forall_forall in Hb. }
  revert l2. induction l1 as [|a l1 IH]; intros [|b l2] Hs1 Hs2 Hf.
  - done.
  - specialize (Hf b.2). unfold with_key in Hf.
    rewrite filter_cons, decide_True in Hf by done. done.
  - specialize (Hf a.2). unfold with_key in Hf.
    rewrite filter_cons, decide_True in Hf by done. done.
  - assert (Hk : a.2 = b.2).
    { apply (anti_symm String.le).
      - eapply (Hhd b l2 a l1); [done|]. symmetry. apply Hf.
      - eapply (Hhd a l1 b l2); [done|]. apply Hf. }
    assert (a = b) as ->.
    { specialize (Hf a.2). unfold with_key in Hf.
      rewrite !filter_cons, decide_True, (decide_True _ _ (eq_sym Hk)) in Hf by done.
      congruence. }
    f_equal. apply IH.
    + by apply StronglySorted_inv in Hs1 as [? _].
    + by apply StronglySorted_inv in Hs2 as [? _].
    + intros z. specialize (Hf z). unfold with_key in *.
      rewrite !filter_cons in Hf. case_decide; (done || congruence).
Qed.

Lemma stable_sort_unique l l' :
  StronglySorted key_le l' ->
  (forall z, with_key z l' = with_key z l) ->
  l' = stable_sort l.
Proof.
  intros Hs Hf. apply sorted_stable_unique; [done|apply stable_sort_sorted|].
  intros z. by rewrite stable_sort_with_key.
Qed.

Lemma sorted_adjacent l (i : nat) x y :
  StronglySorted key_le l ->
  l !! i = Some x -> l !! S i = Some y -> key_le x y.
Proof.
  intros Hs. revert i. induction Hs as [|a l Hs IH Ha]; intros i Hx Hy; [done|].
  destruct i as [|i]; cbn in *.
  - simplify_eq. eapply Forall_forall in Ha; [done|].
    by eapply list_elem_of_lookup_2.
  - by eapply IH.
Qed.
End stable_sort.

(** * Running computations *)

Lemma bind_Ok {A B : Type} (m : M A) (f : A -> M B) (st st' : state) (a : A) :
  m st = (Ok a, st') -> bind m f st = f a st'.
Proof. unfold bind. by intros ->. Qed.

Lemma bind_Raised {A B : Type} (m : M A) (f : A -> M B) (st st' : state) (e : exn) :
  m st = (Raised e, st') -> bind m f st = (Raised e, st').
Proof. unfold bind. by intros ->. Qed.

Lemma map_M_reads {A B : Type} (f : A -> M B) (l : list A) (ys : list B) (st : state) :
  Forall2 (fun x y => f x st = (Ok y, st)) l ys ->
  map_M f l st = (Ok ys, st).
Proof.
  induction 1 as [|x y l ys Hx _ IH]; [done|]. cbn.
  rewrite (bind_Ok _ _ _ _ _ Hx). by rewrite (bind_Ok _ _ _ _ _ IH).
Qed.

Lemma fresh_lookup (h : gmap loc pyobj) : h !! fresh (dom h) = None.
Proof. apply not_elem_of_dom, is_fresh. Qed.

Lemma fresh_ne (h : gmap loc pyobj) (l : loc) (o : pyobj) :
  h !! l = Some o -> l <> fresh (dom h).
Proof. intros H ->. by rewrite fresh_lookup in H. Qed.

Lemma dict_of_run (l : loc) (d : gmap string pyval) (st : state) :
  heap st !! l = Some (PyDict d) -> dict_of l st = (Ok d, st).
Proof. intros H. unfold dict_of, bind, deref. by rewrite H. Qed.

Lemma mapping_of_run (l : loc) (d : gmap string pyval) (st : state) :
  heap st !! l = Some (PyDict d) -> mapping_of l st = (Ok d, st).
Proof. intros H. unfold mapping_of, bind, deref. by rewrite H. Qed.

Lemma list_items_run (l : loc) (items : list loc) (st : state) :
  heap st !! l = Some (PyList items) -> list_items l st = (Ok items, st).
Proof. intros H. unfold list_items, bind, deref. by rewrite H. Qed.

Lemma list_append_run (l x : loc) (items : list loc) (st : state) :
  heap st !! l = Some (PyList items) ->
  list_append l x st = (Ok tt, set_heap (insert l (PyList (items ++ [x]))) st).
Proof. intros H. unfold list_append, bind, deref. by rewrite H. Qed.

(** * Adding *)

Lemma mapM_str_key {A : Type} (l : list A) (ks : list string) :
  length l = length ks ->
  mapM str_key (zip l (py_str <$> ks)) = Some (zip l ks).
Proof.
  revert ks. induction l as [|x l IH]; intros [|k ks] Hl; try done.
  cbn in *. rewrite IH by lia. done.
Qed.

Lemma zodiac_of_person_dict (name surname zodiac : string) (dt : datetime) :
  zodiac_of (person_dict name surname dt zodiac) = py_str zodiac.
Proof. reflexivity. Qed.

Lemma list_sort_run (l : loc) (key : loc -> M pyval) (items : list loc)
    (keys : list string) (st : state) :
  heap st !! l = Some (PyList items) ->
  Forall2 (fun x z => key x st = (Ok (py_str z), st)) items keys ->
  list_sort l key st =
  (Ok tt, set_heap (insert l (PyList (stable_sort (zip items keys)).*1)) st).
Proof.
  intros Hl Hk. unfold list_sort.
  rewrite (bind_Ok _ _ _ _ _ (list_items_run _ _ _ Hl)).
  rewrite (bind_Ok _ _ _ _ _ (map_M_reads key items (py_str <$> keys) st
             (proj2 (Forall2_fmap_r _ _ _ _) Hk))).
  unfold sorted_by_key. rewrite mapM_str_key by by eapply Forall2_length.
  done.
Qed.

Lemma add_person_run (st : state) (people : loc) (items : list loc)
    (keys : list string) (name surname text zodiac : string) (dt : datetime) :
  heap st !! people = Some (PyList items) ->
  Forall2 (has_zodiac (heap st)) items keys ->
  strptime_dmY text = Some dt ->
  let new := fresh (dom (heap st)) in
  add_person people name surname text zodiac st =
  (Ok people,
   set_heap (fun h =>
     <[people := PyList (stable_sort (zip (items ++ [new]) (keys ++ [zodiac]))).*1]>
       (<[new := PyDict (person_dict name surname dt zodiac)]> h)) st).
Proof.
  intros Hp Hk Ht new.
  assert (Hnew : people <> new) by by eapply fresh_ne.
  unfold add_person, strptime. rewrite Ht.
  unfold bind at 1. unfold ret at 1.
  unfold bind at 1. unfold alloc at 1. fold new.
  set (st1 := set_heap (insert new _) st).
  assert (H1 : heap st1 !! people = Some (PyList items)).
  { cbn. by rewrite lookup_insert_ne. }
  rewrite (bind_Ok _ _ _ _ _ (list_append_run _ new _ _ H1)).
  set (st2 := set_heap (insert people _) st1).
  assert (H2 : heap st2 !! people = Some (PyList (items ++ [new]))).
  { cbn. by rewrite lookup_insert_eq. }
  erewrite (bind_Ok (list_sort _ _)); cycle 1.
  { apply (list_sort_run _ _ _ (keys ++ [zodiac]) _ H2).
    apply Forall2_app.
    - eapply Forall2_impl; [exact Hk|].
      intros l z (d & Hd & Hz). cbn beta.
      assert (Hl : heap st2 !! l = Some (PyDict d)).
      { assert (l <> new) by by eapply fresh_ne.
        assert (l <> people) by congruence.
        cbn. by rewrite !lookup_insert_ne. }
      rewrite (bind_Ok _ _ _ _ _ (dict_of_run l d st2 Hl)). by rewrite <- Hz.
    - constructor; [|constructor].
      assert (Hl : heap st2 !! new = Some (PyDict (person_dict name surname dt zodiac))).
      { cbn. rewrite lookup_insert_ne by done. by rewrite lookup_insert_eq. }
      by rewrite (bind_Ok _ _ _ _ _ (dict_of_run new _ st2 Hl)). }
  unfold ret, set_heap. cbn. f_equal. f_equal.
  by rewrite insert_insert_eq.
Qed.

(** * Selecting *)

Lemma add_stdouts_nil (st : state) : add_stdouts [] st = st.
Proof. destruct st. unfold add_stdouts. cbn. by rewrite app_nil_r. Qed.

Lemma add_stdouts_app (os os' : list output) (st : state) :
  add_stdouts os' (add_stdouts os st) = add_stdouts (os ++ os') st.
Proof. unfold add_stdouts. cbn. by rewrite app_assoc. Qed.

Lemma add_stdout_stdouts (o : output) (st : state) :
  add_stdout o st = add_stdouts [o] st.
Proof. done. Qed.

Lemma select_loop (month : Z) (items : list loc) (ds : list (gmap string pyval))
    (n : nat) (st : state) :
  Forall2 (fun l d => heap st !! l = Some (PyDict d)) items ds ->
  Forall (fun d => exists dt, d !! "date_of_birth" = Some (PDatetime dt)) ds ->
  let matches := filter (fun d => born_in month d = true) ds in
  for_each items (Z.of_nat n) (fun person count =>
    d <- dict_of person ;;
    m <- attr_month (dict_get d "date_of_birth" py_None) ;;
    if m =? month then
      let count := count + 1 in
      print (Msg_selected count (dict_get d "name" (py_str ""))
                                (dict_get d "surname" (py_str ""))) ;;
      ret count
    else ret count) st
  = (Ok (Z.of_nat (n + length matches)),
     add_stdouts (imap (fun i => selected_line (n + i)) matches) st).
Proof.
  revert items n st.
  induction ds as [|d ds IH]; intros items n st Hl Hd matches.
  - apply Forall2_nil_inv_r in Hl as ->. cbn.
    by rewrite Nat.add_0_r, add_stdouts_nil.
  - apply Forall2_cons_inv_r in Hl as (l & items' & Hld & Hl & ->).
    apply Forall_cons in Hd as [[dt Hdt] Hd].
    cbn [for_each].
    unfold bind at 1. unfold bind at 1. rewrite (dict_of_run _ _ _ Hld).
    unfold dict_get at 1. rewrite Hdt. cbn [attr_month].
    unfold bind at 1. unfold ret at 1.
    assert (Hb : born_in month d = (dt_month dt =? month)).
    { unfold born_in. by rewrite Hdt. }
    subst matches. rewrite filter_cons.
    destruct (dt_month dt =? month) eqn:Hm.
    + rewrite decide_True by done.
      unfold bind at 1. unfold print at 1. unfold ret at 1.
      replace (Z.of_nat n + 1) with (Z.of_nat (S n)) by lia.
      rewrite IH by done. cbn [length imap].
      rewrite add_stdout_stdouts, add_stdouts_app.
      f_equal; [do 2 f_equal; lia|]. f_equal. cbn [app]. f_equal.
      * unfold selected_line. f_equal. lia.
      * apply imap_ext. intros i x _. cbn. f_equal. lia.
    + rewrite decide_False by (rewrite Hb; done).
      unfold ret at 1. by rewrite IH.
Qed.

Lemma select_people_run (people : loc) (month : Z) (ds : list (gmap string pyval))
    (st : state) :
  holds_records (heap st) people ds ->
  Forall (fun d => exists dt, d !! "date_of_birth" = Some (PDatetime dt)) ds ->
  select_people people month st = (Ok tt, add_stdouts (select_output month ds) st).
Proof.
  intros (items & Hp & Hl) Hd. unfold select_people.
  rewrite (bind_Ok _ _ _ _ _ (list_items_run _ _ _ Hp)).
  rewrite (bind_Ok _ _ _ _ _ (select_loop month items ds 0 st Hl Hd)).
  unfold select_output.
  destruct (filter _ ds) as [|d' ms] eqn:E; cbn [length Nat.add].
  - cbn. by rewrite add_stdouts_nil.
  - match goal with |- context [?a =? 0] => destruct (Z.eqb_spec a 0) as [?|_] end;
      [lia|done].
Qed.

(** * Saving *)

Lemma keeps_heap_ret {A : Type} (a : A) : keeps_heap (ret a).
Proof. by intros st. Qed.

Lemma keeps_heap_raise {A : Type} (e : exn) : keeps_heap (@raise A e).
Proof. by intros st. Qed.

Lemma keeps_heap_bind {A B : Type} (m : M A) (f : A -> M B) :
  keeps_heap m -> (forall a, keeps_heap (f a)) -> keeps_heap (bind m f).
Proof.
  intros Hm Hf st. unfold bind. specialize (Hm st).
  destruct (m st) as [[a|e] st'] eqn:E; cbn in *; [|done].
  etrans; [exact Hm|apply Hf].
Qed.

Lemma keeps_heap_map_M {A B : Type} (f : A -> M B) (l : list A) :
  (forall a, keeps_heap (f a)) -> keeps_heap (map_M f l).
Proof.
  intros Hf. induction l as [|x l IH]; cbn; [apply keeps_heap_ret|].
  apply keeps_heap_bind; [done|]. intros y.
  apply keeps_heap_bind; [done|]. intros ys. apply keeps_heap_ret.
Qed.

Lemma keeps_heap_alloc (o : pyobj) : keeps_heap (alloc o).
Proof. intros st. cbn. apply insert_subseteq, fresh_lookup. Qed.

Lemma keeps_heap_deref (l : loc) : keeps_heap (deref l).
Proof. intros st. unfold deref. by destruct (heap st !! l). Qed.

Lemma keeps_heap_list_items (l : loc) : keeps_heap (list_items l).
Proof.
  apply keeps_heap_bind; [apply keeps_heap_deref|].
  intros []; [apply keeps_heap_raise|apply keeps_heap_ret].
Qed.

Lemma keeps_heap_dict_of (l : loc) : keeps_heap (dict_of l).
Proof.
  apply keeps_heap_bind; [apply keeps_heap_deref|].
  intros []; [apply keeps_heap_ret|apply keeps_heap_raise].
Qed.

Lemma keeps_heap_mapping_of (l : loc) : keeps_heap (mapping_of l).
Proof.
  apply keeps_heap_bind; [apply keeps_heap_deref|].
  intros []; [apply keeps_heap_ret|apply keeps_heap_raise].
Qed.

Lemma keeps_heap_strftime (v : pyval) : keeps_heap (strftime v).
Proof. destruct v; [apply keeps_heap_raise|apply keeps_heap_ret]. Qed.

Lemma keeps_heap_open_w (path : string) : keeps_heap (open_w path).
Proof. by intros st. Qed.

Lemma keeps_heap_json_dump (obj : loc) (path : string) : keeps_heap (json_dump obj path).
Proof.
  apply keeps_heap_bind; [apply keeps_heap_list_items|]. intros items.
  apply keeps_heap_bind; [apply keeps_heap_map_M, keeps_heap_dict_of|]. intros dicts.
  destruct (mapM dict_to_json dicts); [by intros st|apply keeps_heap_raise].
Qed.

Lemma keeps_heap_save_people (file_name : string) (staff : loc) :
  keeps_heap (save_people file_name staff).
Proof.
  apply keeps_heap_bind; [apply keeps_heap_list_items|]. intros items.
  apply keeps_heap_bind.
  { apply keeps_heap_map_M. intros person.
    apply keeps_heap_bind; [apply keeps_heap_mapping_of|]. intros d.
    apply keeps_heap_bind; [apply keeps_heap_strftime|]. intros text.
    apply keeps_heap_alloc. }
  intros copies.
  apply keeps_heap_bind; [apply keeps_heap_alloc|]. intros staff_formatted.
  apply keeps_heap_bind; [apply keeps_heap_open_w|]. intros _.
  apply keeps_heap_json_dump.
Qed.

(** The copies that the comprehension of [save_people] builds. *)
Lemma save_copies (items : list loc) (ds : list (gmap string pyval))
    (docs : list json) (st : state) :
  Forall2 (fun l d => heap st !! l = Some (PyDict d)) items ds ->
  mapM saved_record ds = Some docs ->
  exists copies st',
    map_M (fun person =>
      d <- mapping_of person ;;
      text <- strftime (dict_get d "date_of_birth" py_None) ;;
      alloc (PyDict (<["date_of_birth" := py_str text]> d))) items st
    = (Ok copies, st')
    /\ heap st ⊆ heap st'
    /\ files st' = files st /\ stdout st' = stdout st
    /\ exists cs, Forall2 (fun c d => heap st' !! c = Some (PyDict d)) copies cs
         /\ mapM dict_to_json cs = Some docs.
Proof.
  revert items docs st. induction ds as [|d ds IH]; intros items docs st Hl Hdocs.
  - apply Forall2_nil_inv_r in Hl as ->.
    cbn in Hdocs. simplify_eq. exists [], st. cbn. repeat split; try done.
    exists []. by split.
  - apply Forall2_cons_inv_r in Hl as (l & items' & Hd & Hl & ->).
    rewrite mapM_Some in Hdocs. apply Forall2_cons_inv_l in Hdocs
      as (doc & docs' & Hdoc & Hdocs & ->).
    apply mapM_Some in Hdocs.
    unfold saved_record in Hdoc.
    destruct (d !! "date_of_birth") as [[|dt]|] eqn:Hdt; try done.
    cbn [map_M]. unfold bind at 1. unfold bind at 1.
    rewrite (mapping_of_run _ _ _ Hd).
    unfold dict_get at 1. rewrite Hdt. cbn [strftime].
    unfold bind at 1. unfold ret at 1. unfold alloc at 1.
    set (c := fresh (dom (heap st))).
    set (st1 := set_heap (insert c _) st).
    assert (Hsub : heap st ⊆ heap st1) by apply insert_subseteq, fresh_lookup.
    destruct (IH items' docs' st1) as (copies & st' & Hrun & Hsub' & Hf & Ho & cs & Hcs & Hj);
      [|done|].
    { eapply Forall2_impl; [exact Hl|]. intros l' d' Hl'. cbn beta.
      exact (lookup_weaken _ _ _ _ Hl' Hsub). }
    rewrite (bind_Ok _ _ _ _ _ Hrun). unfold ret.
    eexists (c :: copies), st'. split; [done|]. split; [by etrans|].
    split; [done|]. split; [done|].
    eexists (_ :: cs). split.
    + constructor; [|done]. eapply lookup_weaken; [|exact Hsub'].
      apply lookup_insert_eq.
    + cbn. rewrite Hdoc. cbn. by rewrite Hj.
Qed.

Lemma save_people_run (file_name : string) (staff : loc)
    (ds : list (gmap string pyval)) (docs : list json) (st : state) :
  holds_records (heap st) staff ds ->
  mapM saved_record ds = Some docs ->
  exists st',
    save_people file_name staff st = (Ok tt, st')
    /\ heap st ⊆ heap st'
    /\ files st' = <[os_path_join "data" file_name := Some (JArr docs)]> (files st)
    /\ stdout st' = stdout st.
Proof.
  intros (items & Hp & Hl) Hdocs. unfold save_people.
  rewrite (bind_Ok _ _ _ _ _ (list_items_run _ _ _ Hp)).
  destruct (save_copies items ds docs st Hl Hdocs)
    as (copies & st1 & Hrun & Hsub & Hf & Ho & cs & Hcs & Hj).
  rewrite (bind_Ok _ _ _ _ _ Hrun).
  unfold bind at 1. unfold alloc at 1.
  set (sf := fresh (dom (heap st1))).
  set (st2 := set_heap (insert sf _) st1).
  unfold bind at 1. unfold open_w at 1.
  set (st3 := set_files _ st2).
  assert (Hsf : heap st3 !! sf = Some (PyList copies)) by apply lookup_insert_eq.
  unfold json_dump.
  rewrite (bind_Ok _ _ _ _ _ (list_items_run _ _ _ Hsf)).
  erewrite (bind_Ok (map_M _ _)); cycle 1.
  { apply (map_M_reads _ _ cs). eapply Forall2_impl; [exact Hcs|].
    intros c d Hc. cbn beta. apply dict_of_run. cbn.
    eapply lookup_weaken; [exact Hc|]. apply insert_subseteq, fresh_lookup. }
  rewrite Hj. eexists. split; [done|]. cbn. split; [|split; [|done]].
  - etrans; [exact Hsub|]. apply insert_subseteq, fresh_lookup.
  - by rewrite insert_insert_eq, Hf.
Qed.

(** * Loading *)

(** One turn of the loop of [load_people]. *)
Lemma load_step (rp : loc) (refs : list loc) (person : json) (cnt : Z) (st : state) :
  heap st !! rp = Some (PyList refs) ->
  (ok <- validate_person person person_schema ;;
   (if ok then
      try_except
        (match person with
         | JObj m =>
             match m !! "date_of_birth" with
             | Some text =>
                 date <- strptime text ;;
                 p <- alloc (PyDict (<["date_of_birth" := PDatetime date]> (PJson <$> m))) ;;
                 list_append rp p
             | None => raise KeyError
             end
         | _ => raise TypeError
         end)
        (fun _ => print (Msg_date_error (cnt + 1)))
    else print Msg_invalid_person) ;;
   ret (cnt + 1)) st
  = (Ok (cnt + 1),
     add_stdouts (load_diagnostics (cnt + 1) person)
       match load_record person with
       | Some d =>
           let p := fresh (dom (heap st)) in
           set_heap (fun h => <[rp := PyList (refs ++ [p])]> (<[p := PyDict d]> h)) st
       | None => st
       end).
Proof.
  intros Hrp. unfold bind at 1. rewrite validate_person_conforms.
  unfold load_diagnostics.
  destruct (conforms person) eqn:Hc.
  - apply conforms_fields in Hc
      as (m & n & s & t & z & -> & Hn & Hs & Ht & Hz).
    assert (Hc : conforms (JObj m) = true).
    { apply conforms_fields. by eexists _, _, _, _, _. }
    unfold load_record. rewrite Hc. unfold parsed_date. rewrite Ht.
    unfold bind at 1. unfold try_except. unfold strptime.
    destruct (strptime_dmY t) as [dt|] eqn:Hdt.
    + unfold bind at 1. unfold ret at 1. unfold bind at 1. unfold alloc at 1.
      erewrite list_append_run; cycle 1.
      { cbn. rewrite lookup_insert_ne; [exact Hrp|].
        intros E. symmetry in E. by eapply fresh_ne in E. }
      unfold ret. by rewrite add_stdouts_nil.
    + unfold bind at 1. unfold raise at 1. unfold print, ret.
      by rewrite add_stdout_stdouts.
  - assert (load_record person = None) as ->.
    { unfold load_record. destruct person; try done. by rewrite Hc. }
    unfold bind, print, ret. by rewrite !add_stdout_stdouts, add_stdouts_app.
Qed.

Lemma load_loop (rp : loc) (elems : list json) (cnt : Z) (refs : list loc)
    (ds : list (gmap string pyval)) (st : state) :
  heap st !! rp = Some (PyList refs) ->
  Forall2 (fun r d => heap st !! r = Some (PyDict d)) refs ds ->
  exists st',
    for_each elems cnt (fun person cnt =>
      let cnt := cnt + 1 in
      ok <- validate_person person person_schema ;;
      (if ok then
         try_except
           (match person with
            | JObj m =>
                match m !! "date_of_birth" with
                | Some text =>
                    date <- strptime text ;;
                    p <- alloc (PyDict (<["date_of_birth" := PDatetime date]> (PJson <$> m))) ;;
                    list_append rp p
                | None => raise KeyError
                end
            | _ => raise TypeError
            end)
           (fun _ => print (Msg_date_error cnt))
       else print Msg_invalid_person) ;;
      ret cnt) st
    = (Ok (cnt + Z.of_nat (length elems)), st')
    /\ holds_records (heap st') rp (ds ++ omap load_record elems)
    /\ (forall l o, l <> rp -> heap st !! l = Some o -> heap st' !! l = Some o)
    /\ files st' = files st
    /\ stdout st' = stdout st
         ++ concat (imap (fun i j => load_diagnostics (cnt + Z.of_nat i + 1) j) elems).
Proof.
  revert cnt refs ds st.
  induction elems as [|person elems IH]; intros cnt refs ds st Hrp Hrefs.
  - exists st. cbn. rewrite Z.add_0_r, !app_nil_r. repeat split; try done.
    by exists refs.
  - cbn [for_each].
    erewrite bind_Ok; [|by apply (load_step rp refs)].
    set (st1 := add_stdouts _ _).
    assert (H1 : exists refs1,
      heap st1 !! rp = Some (PyList refs1)
      /\ Forall2 (fun r d => heap st1 !! r = Some (PyDict d)) refs1
           (ds ++ option_list (load_record person))
      /\ (forall l o, l <> rp -> heap st !! l = Some o -> heap st1 !! l = Some o)
      /\ files st1 = files st
      /\ stdout st1 = stdout st ++ load_diagnostics (cnt + 1) person).
    { subst st1. destruct (load_record person) as [d|]; cbn.
      - set (p := fresh (dom (heap st))).
        assert (Hp : rp <> p) by by eapply fresh_ne.
        exists (refs ++ [p]). rewrite lookup_insert_eq. split; [done|].
        split; [|split; [|done]].
        + apply Forall2_app.
          * eapply Forall2_impl; [exact Hrefs|]. intros r d' Hr. cbn beta in Hr |- *.
            assert (r <> p) by by eapply fresh_ne.
            assert (r <> rp) by congruence.
            by rewrite !lookup_insert_ne.
          * constructor; [|done].
            rewrite lookup_insert_ne by done. apply lookup_insert_eq.
        + intros l o Hl Ho. assert (l <> p) by by eapply fresh_ne.
          by rewrite !lookup_insert_ne.
      - exists refs. rewrite app_nil_r. done. }
    destruct H1 as (refs1 & Hrp1 & Hrefs1 & Hframe1 & Hf1 & Ho1).
    destruct (IH (cnt + 1) refs1 _ st1 Hrp1 Hrefs1)
      as (st' & Hrun & Hrec & Hframe & Hf & Ho).
    exists st'. split.
    { etrans; [exact Hrun|]. do 2 f_equal. cbn [length]. lia. }
    split.
    { cbn [omap list_omap]. destruct (load_record person); cbn in *;
        by rewrite <- ?app_assoc in Hrec. }
    split; [by eauto|]. split; [congruence|].
    rewrite Ho, Ho1. cbn [imap concat]. rewrite <- !app_assoc.
    do 2 f_equal. { do 2 f_equal. lia. }
    f_equal. apply imap_ext. intros i j _. cbn. f_equal. lia.
Qed.

Lemma load_people_run (file_name : string) (elems : list json) (st : state) :
  files st !! os_path_join "data" file_name = Some (Some (JArr elems)) ->
  exists st',
    load_people file_name st = (Ok (fresh (dom (heap st))), st')
    /\ holds_records (heap st') (fresh (dom (heap st))) (omap load_record elems)
    /\ heap st ⊆ heap st'
    /\ files st' = files st
    /\ stdout st' = stdout st ++ load_output elems.
Proof.
  intros Hfile. unfold load_people.
  unfold bind at 1. unfold json_load at 1. rewrite Hfile.
  unfold bind at 1. unfold alloc at 1.
  set (rp := fresh (dom (heap st))).
  set (st1 := set_heap (insert rp _) st).
  unfold bind at 1. cbn [py_iter]. unfold ret at 1.
  destruct (load_loop rp elems 0 [] [] st1) as (st' & Hrun & Hrec & Hframe & Hf & Ho).
  { apply lookup_insert_eq. }
  { constructor. }
  rewrite (bind_Ok _ _ _ _ _ Hrun). unfold ret.
  exists st'. split; [done|]. split; [done|]. split; [|split; [done|]].
  - apply map_subseteq_spec. intros l o Hl. apply Hframe.
    + by eapply fresh_ne.
    + cbn. rewrite lookup_insert_ne; [done|].
      intros E. symmetry in E. by eapply fresh_ne in E.
  - rewrite Ho. cbn. f_equal.
Qed.

(** * Records in memory and in the file *)

Lemma dict_to_json_fmap (m : gmap string json) :
  dict_to_json (PJson <$> m) = Some (JObj m).
Proof.
  unfold dict_to_json. rewrite decide_True.
  - do 2 f_equal. apply map_eq. intros k.
    rewrite lookup_omap, lookup_fmap. by destruct (m !! k).
  - intros k v. rewrite lookup_fmap. destruct (m !! k); naive_solver.
Qed.

Lemma saved_record_loaded (m : gmap string json) (dt : datetime) :
  saved_record (<["date_of_birth" := PDatetime dt]> (PJson <$> m))
  = Some (JObj (<["date_of_birth" := JStr (strftime_dmY dt)]> m)).
Proof.
  unfold saved_record. rewrite lookup_insert_eq, insert_insert_eq.
  unfold py_str. by rewrite <- fmap_insert, dict_to_json_fmap.
Qed.

Lemma load_record_Some (j : json) (d : gmap string pyval) :
  load_record j = Some d <->
  exists m dt, j = JObj m /\ conforms j = true /\ parsed_date j = Some dt
    /\ d = <["date_of_birth" := PDatetime dt]> (PJson <$> m).
Proof.
  unfold load_record. split.
  - destruct j as [| | | | | |m]; try done.
    destruct (conforms (JObj m)); [|done].
    destruct (parsed_date (JObj m)) as [dt|]; [|done].
    intros [= <-]. by exists m, dt.
  - intros (m & dt & -> & -> & -> & ->). done.
Qed.

Lemma load_diagnostics_accepted (cnt : Z) (j : json) :
  is_Some (load_record j) -> load_diagnostics cnt j = [].
Proof.
  intros [d (m & dt & -> & Hc & Hp & _)%load_record_Some].
  unfold load_diagnostics. by rewrite Hc, Hp.
Qed.

(** A record is the image of a JSON object with the date parsed. *)
Lemma person_record_json (d : gmap string pyval) :
  person_record d ->
  exists m dt,
    d = <["date_of_birth" := PDatetime dt]> (PJson <$> m)
    /\ Calendar.valid dt
    /\ (forall t, conforms (JObj (<["date_of_birth" := JStr t]> m)) = true).
Proof.
  intros [[n Hn] [s Hs] [z Hz] (dt & Hdt & Hv) Hj].
  exists (omap to_json d), dt. split; [|split; [done|]].
  - apply map_eq. intros k.
    destruct (decide (k = "date_of_birth")) as [->|Hk].
    + by rewrite lookup_insert_eq.
    + rewrite lookup_insert_ne, lookup_fmap, lookup_omap by done.
      destruct (d !! k) as [v|] eqn:E; [|done].
      destruct (Hj k v E Hk) as [j ->]. done.
  - intros t. apply conforms_fields.
    exists (<["date_of_birth" := JStr t]> (omap to_json d)), n, s, t, z.
    rewrite lookup_insert_eq, !lookup_insert_ne, !lookup_omap by done.
    by rewrite Hn, Hs, Hz.
Qed.

Lemma person_record_saved (d : gmap string pyval) :
  person_record d -> is_Some (saved_record d).
Proof.
  intros (m & dt & -> & _ & _)%person_record_json.
  by rewrite saved_record_loaded.
Qed.

Lemma records_saved (ds : list (gmap string pyval)) :
  Forall person_record ds -> exists docs, mapM saved_record ds = Some docs.
Proof.
  intros H. apply (mapM_is_Some_2 saved_record).
  eapply Forall_impl; [exact H|]. apply person_record_saved.
Qed.

Lemma person_record_round_trip (d : gmap string pyval) :
  person_record d -> four_digit_year d ->
  exists doc, saved_record d = Some doc /\ load_record doc = Some d.
Proof.
  intros (m & dt & -> & Hv & Hc)%person_record_json (dt' & Hdt & Hy).
  rewrite lookup_insert_eq in Hdt. injection Hdt as <-.
  eexists. split; [apply saved_record_loaded|].
  apply load_record_Some. eexists _, dt. split; [done|]. split; [apply Hc|].
  split.
  - unfold parsed_date. rewrite lookup_insert_eq. by apply strptime_strftime.
  - by rewrite fmap_insert, insert_insert_eq.
Qed.

Lemma concat_imap_nil {A B : Type} (f : nat -> A -> list B) (l : list A) :
  (forall i x, x ∈ l -> f i x = []) -> concat (imap f l) = [].
Proof.
  revert f. induction l as [|x l IH]; intros f Hf; [done|].
  cbn. rewrite Hf by set_solver. cbn. apply IH.
  intros i y Hy. apply Hf. set_solver.
Qed.

Lemma load_output_accepted (docs : list json) :
  Forall (fun j => is_Some (load_record j)) docs -> load_output docs = [].
Proof.
  intros H. apply concat_imap_nil. intros i j Hj.
  apply load_diagnostics_accepted. by eapply Forall_forall in H.
Qed.

Lemma records_round_trip (ds : list (gmap string pyval)) :
  Forall person_record ds ->
  Forall four_digit_year ds ->
  exists docs, mapM saved_record ds = Some docs
    /\ omap load_record docs = ds
    /\ load_output docs = [].
Proof.
  intros H Hy.
  assert (exists docs, mapM saved_record ds = Some docs
            /\ Forall2 (fun doc d => load_record doc = Some d) docs ds)
    as (docs & Hs & Hl).
  { revert Hy. induction H as [|d ds' Hd _ IH]; intros Hy; [by exists []|].
    apply Forall_cons in Hy as [Hyd Hy]. destruct (IH Hy) as (docs & Hs & Hl).
    destruct (person_record_round_trip d Hd Hyd) as (doc & Hsd & Hld).
    exists (doc :: docs). cbn. rewrite Hsd. cbn. rewrite Hs. cbn.
    split; [done|]. by constructor. }
  exists docs. split; [done|]. split.
  - clear Hs H Hy. induction Hl as [|doc d docs ds' Hd _ IH]; [done|].
    cbn. by rewrite Hd, IH.
  - apply load_output_accepted. eapply Forall2_Forall_l; [exact Hl|].
    apply Forall_true. intros d doc Hd. by rewrite Hd.
Qed.

(** What loading keeps is a record. *)
Lemma load_record_person (j : json) (d : gmap string pyval) :
  load_record j = Some d -> person_record d.
Proof.
  intros (m & dt & -> & Hc & Hp & ->)%load_record_Some.
  apply conforms_fields in Hc as (m' & n & s & t & z & [= <-] & Hn & Hs & Ht & Hz).
  split.
  - exists n. by rewrite lookup_insert_ne, lookup_fmap, Hn by done.
  - exists s. by rewrite lookup_insert_ne, lookup_fmap, Hs by done.
  - exists z. by rewrite lookup_insert_ne, lookup_fmap, Hz by done.
  - exists dt. rewrite lookup_insert_eq. split; [done|].
    unfold parsed_date in Hp. rewrite Ht in Hp. by eapply strptime_valid.
  - intros k v Hk Hne. rewrite lookup_insert_ne, lookup_fmap in Hk by done.
    destruct (m !! k) as [j|]; [|done]. exists j. by simplify_eq/=.
Qed.

Lemma person_dict_record (name surname zodiac : string) (dt : datetime) :
  Calendar.valid dt -> person_record (person_dict name surname dt zodiac).
Proof.
  intros Hv. unfold person_dict. split.
  - by exists name.
  - exists surname. rewrite lookup_insert_ne by done. apply lookup_insert_eq.
  - exists zodiac. rewrite !lookup_insert_ne by done. apply lookup_insert_eq.
  - exists dt. rewrite !lookup_insert_ne by done. by rewrite lookup_insert_eq.
  - intros k v Hk Hne.
    repeat (apply lookup_insert_Some in Hk as [[<- <-]|[? Hk]];
            [first [done | by eexists]|]).
    done.
Qed.

(** * Adding to a list of records *)

Lemma person_record_zodiac (d : gmap string pyval) :
  person_record d -> exists z, zodiac_of d = py_str z.
Proof.
  intros [_ _ [z Hz] _ _]. exists z. unfold zodiac_of, dict_get. by rewrite Hz.
Qed.



(** What loading returns is a list of records. *)
Lemma load_people_records (elems : list json) :
  Forall person_record (omap load_record elems).
Proof.
  induction elems as [|j elems IH]; cbn; [done|].
  destruct (load_record j) as [d|] eqn:Hd; [|done].
  constructor; [by eapply load_record_person|done].
Qed.

Lemma saved_record_date (rec : gmap string pyval) (doc : json) (dt : datetime) :
  saved_record rec = Some doc ->
  rec !! "date_of_birth" = Some (PDatetime dt) ->
  exists o, doc = JObj o /\ o !! "date_of_birth" = Some (JStr (strftime_dmY dt))
    /\ forall k, k <> "date_of_birth" -> o !! k = rec !! k ≫= to_json.
Proof.
  unfold saved_record, dict_to_json. intros Hs Hdt. rewrite Hdt in Hs.
  case_decide; [|done]. simplify_eq. eexists. split; [done|]. split.
  - by rewrite lookup_omap, lookup_insert_eq.
  - intros k Hk. by rewrite lookup_omap, lookup_insert_ne.
Qed.


Lemma filter_accepted_omap (elems : list json) :
  Forall2 (fun j rec => load_record j = Some rec)
    (filter accepted elems) (omap load_record elems).
Proof.
  induction elems as [|j elems IH]; [constructor|].
  rewrite filter_cons. cbn [omap list_omap].
  destruct (load_record j) as [rec|] eqn:Hj.
  - rewrite decide_True by (unfold accepted; by rewrite Hj). by constructor.
  - rewrite decide_False; [done|]. unfold accepted. rewrite Hj. by intros [? ?].
Qed.

Lemma Forall2_compose {A B C : Type} (P : A -> B -> Prop) (Q : B -> C -> Prop)
    (l : list A) (k : list B) (n : list C) :
  Forall2 P l k -> Forall2 Q k n ->
  Forall2 (fun a c => exists b, P a b /\ Q b c) l n.
Proof.
  intros H. revert n. induction H as [|a b l k Hab _ IH]; intros n Hq.
  - apply Forall2_nil_inv_l in Hq as ->. constructor.
  - apply Forall2_cons_inv_l in Hq as (c & n' & Hbc & Hq & ->).
    constructor; [by exists b|by apply IH].
Qed.


Lemma Forall2_zip {A B : Type} (P : A -> B -> Prop) (l : list A) (k : list B) :
  Forall2 P l k -> Forall (fun p => P p.1 p.2) (zip l k).
Proof. induction 1; cbn; by constructor. Qed.

Lemma two_people_records :
  holds_records (heap two_people) 1%positive [boris; anna]
  /\ Forall person_record [boris; anna].
Proof.
  split.
  - exists [2%positive; 3%positive]. split; [reflexivity|].
    repeat constructor.
  - constructor; [|constructor; [|constructor]];
      apply person_dict_record; reflexivity.
Qed.


(** * The properties of the description *)

(** C1.  After [add_person] the list is sorted by [zodiac_sign]: the keys
    of neighbours are in order; the sort is stable: for every key, the
    items with that key are in the order they had in the list with the new
    record appended, so the new record is the last of its ties.  The list
    holds items whose [zodiac_sign] is a string (or missing: the key is
    then the empty string), and the date given parses. *)
Theorem add_person_sorted_stable (st : state) (people : loc) (items : list loc)
    (keys : list string) (name surname text zodiac : string) (dt : datetime) :
  heap st !! people = Some (PyList items) ->
  Forall2 (has_zodiac (heap st)) items keys ->
  strptime_dmY text = Some dt ->
  exists st' items' keys' new,
    add_person people name surname text zodiac st = (Ok people, st')
    /\ heap st' !! people = Some (PyList items')
    /\ Forall2 (has_zodiac (heap st')) items' keys'
    /\ heap st !! new = None
    /\ heap st' !! new = Some (PyDict (person_dict name surname dt zodiac))
    /\ items' ≡ₚ items ++ [new]
    /\ (forall (i : nat) a b,
          keys' !! i = Some a -> keys' !! S i = Some b -> String.le a b)
    /\ (forall z, with_key z (zip items' keys')
                  = with_key z (zip (items ++ [new]) (keys ++ [zodiac])))
    /\ with_key zodiac (zip items' keys')
       = with_key zodiac (zip items keys) ++ [(new, zodiac)].
Proof.
  intros Hp Hk Ht.
  pose proof (add_person_run st people items keys name surname text zodiac dt Hp Hk Ht)
    as Hrun. cbv zeta in Hrun.
  set (new := fresh (dom (heap st))) in *.
  set (sorted := stable_sort (zip (items ++ [new]) (keys ++ [zodiac]))) in *.
  assert (Hlen : length items = length keys) by by eapply Forall2_length.
  assert (Hnew : people <> new) by by eapply fresh_ne.
  eexists _, (sorted.*1), (sorted.*2), new. split; [exact Hrun|].
  cbn [heap set_heap].
  assert (Hzip : zip sorted.*1 sorted.*2 = sorted) by apply zip_fst_snd.
  split; [apply lookup_insert_eq|]. split.
  { apply Forall2_fmap, Forall_Forall2_diag. subst sorted.
    rewrite stable_sort_perm. apply Forall2_zip, Forall2_app.
    - eapply Forall2_impl; [exact Hk|]. intros l z (d & Hd & Hz).
      assert (l <> new) by by eapply fresh_ne.
      assert (l <> people) by congruence.
      exists d. by rewrite !lookup_insert_ne.
    - constructor; [|done]. eexists. split; [|apply zodiac_of_person_dict].
      rewrite lookup_insert_ne by done. apply lookup_insert_eq. }
  split; [apply fresh_lookup|]. split.
  { rewrite lookup_insert_ne by done. apply lookup_insert_eq. }
  split.
  { subst sorted. rewrite stable_sort_perm, fst_zip; [done|].
    rewrite !length_app. cbn. lia. }
  split.
  { intros i a b Ha Hb. rewrite list_lookup_fmap in Ha, Hb.
    destruct (sorted !! i) as [x|] eqn:Hx; [|done].
    destruct (sorted !! S i) as [y|] eqn:Hy; [|done].
    pose proof (sorted_adjacent sorted i x y (stable_sort_sorted _) Hx Hy) as Hxy.
    cbn in Ha, Hb. by simplify_eq. }
  split.
  { intros z. rewrite Hzip. apply stable_sort_with_key. }
  rewrite Hzip. subst sorted. rewrite stable_sort_with_key.
  rewrite zip_with_app by done. unfold with_key. rewrite filter_app. f_equal.
  cbn [zip_with]. rewrite filter_cons. by rewrite decide_True.
Qed.

Lemma add_person_sorted_stable_witness :
  exists st' items' keys' new,
    add_person 1%positive "Carl" "Berg" "7.9.1979" "Aquarius" two_people
      = (Ok 1%positive, st')
    /\ heap st' !! 1%positive = Some (PyList items')
    /\ Forall2 (has_zodiac (heap st')) items' keys'
    /\ heap two_people !! new = None
    /\ heap st' !! new
       = Some (PyDict (person_dict "Carl" "Berg" (mk_datetime 1979 9 7) "Aquarius"))
    /\ items' ≡ₚ [2%positive; 3%positive] ++ [new]
    /\ (forall (i : nat) a b,
          keys' !! i = Some a -> keys' !! S i = Some b -> String.le a b)
    /\ (forall z, with_key z (zip items' keys')
                  = with_key z (zip ([2%positive; 3%positive] ++ [new])
                                    (["Aquarius"; "Pisces"] ++ ["Aquarius"])))
    /\ with_key "Aquarius" (zip items' keys')
       = with_key "Aquarius" (zip [2%positive; 3%positive] ["Aquarius"; "Pisces"])
         ++ [(new, "Aquarius")].
Proof.
  apply add_person_sorted_stable.
  - reflexivity.
  - repeat constructor; eexists; split; reflexivity.
  - reflexivity.
Defined.

Example add_person_example :
  (add_person 1%positive "Carl" "Berg" "7.9.1979" "Aquarius" two_people).1
  = Ok 1%positive
  /\ heap (add_person 1%positive "Carl" "Berg" "7.9.1979" "Aquarius" two_people).2
       !! 1%positive
     = Some (PyList [2%positive; 4%positive; 3%positive]).
Proof. split; vm_compute; reflexivity. Qed.

(** C2.  From a file that holds a JSON array, [load_people] returns a new
    list with exactly the elements that conform to the schema and whose
    date parses, each with its date parsed, in the order of the file.  It
    does not raise; for every other element it prints the diagnostics of
    [load_output], the one for a date naming the position counted from 1.
    Objects and files that existed are left as they were. *)
Theorem load_people_keeps_valid_elements (file_name : string) (elems : list json)
    (st : state) :
  files st !! os_path_join "data" file_name = Some (Some (JArr elems)) ->
  exists people st',
    load_people file_name st = (Ok people, st')
    /\ heap st !! people = None
    /\ holds_records (heap st') people (omap load_record elems)
    /\ stdout st' = stdout st ++ load_output elems
    /\ heap st ⊆ heap st'
    /\ files st' = files st.
Proof.
  intros Hfile.
  destruct (load_people_run file_name elems st Hfile)
    as (st' & Hrun & Hrec & Hsub & Hf & Ho).
  exists (fresh (dom (heap st))), st'.
  split; [done|]. split; [apply fresh_lookup|]. done.
Qed.

Lemma load_people_keeps_valid_elements_witness :
  exists people st',
    load_people "people.json" people_file = (Ok people, st')
    /\ heap people_file !! people = None
    /\ holds_records (heap st') people
         (omap load_record file_elems)
    /\ stdout st' = stdout people_file
         ++ load_output file_elems
    /\ heap people_file ⊆ heap st'
    /\ files st' = files people_file.
Proof. apply load_people_keeps_valid_elements. reflexivity. Defined.

Example load_people_example :
  (load_people "people.json" people_file).1 = Ok 1%positive
  /\ stdout (load_people "people.json" people_file).2
     = [ Msg_schema_mismatch [Required_property "date_of_birth"];
         Msg_invalid_person;
         Msg_schema_mismatch [Not_of_type [] T_object];
         Msg_invalid_person;
         Msg_date_error 4 ]
  /\ heap (load_people "people.json" people_file).2 !! 1%positive
     = Some (PyList [2%positive])
  /\ heap (load_people "people.json" people_file).2 !! 2%positive
     = Some (PyDict (<["date_of_birth" := PDatetime (mk_datetime 1990 3 15)]>
                       (PJson <$> anna_json))).
Proof. repeat split; vm_compute; reflexivity. Qed.

(** C3, as the program has it.  [validate_person] returns true only for
    an object that has the keys [name], [surname], [date_of_birth] and
    [zodiac_sign], each with a string; a key beyond these four does not
    change the verdict. *)
Theorem validate_person_needs_four_strings (st : state) :
  (forall j, (validate_person j person_schema st).1 = Ok true ->
     exists m n s t z, j = JObj m
       /\ m !! "name" = Some (JStr n) /\ m !! "surname" = Some (JStr s)
       /\ m !! "date_of_birth" = Some (JStr t) /\ m !! "zodiac_sign" = Some (JStr z))
  /\ (forall m k v, ~ schema_key k ->
        (validate_person (JObj (<[k := v]> m)) person_schema st).1
        = (validate_person (JObj m) person_schema st).1).
Proof.
  split.
  - intros j. rewrite validate_person_conforms.
    destruct (conforms j) eqn:Hc; [|done]. intros _.
    by apply conforms_fields.
  - intros m k v Hk. rewrite !validate_person_conforms.
    assert (conforms (JObj (<[k := v]> m)) = conforms (JObj m)) as ->; [|by case_match].
    unfold conforms, has_str, schema_key in *.
    rewrite !lookup_insert_ne by (intros ->; tauto). done.
Qed.

(** C3 as stated fails: a record with a fifth key is accepted, and so is
    one whose [date_of_birth] is no date. *)
Lemma validate_person_accepts_more :
  validate_person (JObj anna_json) person_schema empty_state = (Ok true, empty_state)
  /\ validate_person
       (JObj {[ "name" := JStr "Anna"; "surname" := JStr "Ivanova";
                "date_of_birth" := JStr "not a date";
                "zodiac_sign" := JStr "Pisces" ]})
       person_schema empty_state
     = (Ok true, empty_state).
Proof. split; vm_compute; reflexivity. Qed.




(** C5.  [select_people] prints the records born in the month, in the
    order of the list, numbered from 1, and the notice when there is none;
    a month outside 1..12 matches no record.  It returns and changes
    nothing else. *)
Theorem select_people_prints_matches (people : loc) (month : Z)
    (ds : list (gmap string pyval)) (st : state) :
  holds_records (heap st) people ds ->
  Forall person_record ds ->
  let matches := filter (fun d => born_in month d = true) ds in
  select_people people month st
  = (Ok tt,
     add_stdouts match matches with
                 | [] => [Msg_not_found]
                 | _ :: _ => imap selected_line matches
                 end st)
  /\ (month < 1 \/ 12 < month -> matches = []).
Proof.
  intros Hrec Hds matches. split.
  - rewrite (select_people_run people month ds st Hrec).
    + unfold select_output. subst matches. by destruct (filter _ ds).
    + eapply Forall_impl; [exact Hds|]. intros d [_ _ _ (dt & Hdt & _) _].
      by exists dt.
  - intros Hm. subst matches. clear Hrec.
    induction Hds as [|d ds Hd _ IH]; [done|].
    rewrite filter_cons, IH. rewrite decide_False; [done|].
    destruct Hd as [_ _ _ (dt & Hdt & Hv) _]. unfold born_in. rewrite Hdt.
    apply check_date_fields_bounds in Hv. lia.
Qed.

Lemma select_people_prints_matches_witness :
  select_people 1%positive 3 two_people
  = (Ok tt,
     add_stdouts
       match filter (fun d => born_in 3 d = true) [boris; anna] with
       | [] => [Msg_not_found]
       | _ :: _ => imap selected_line (filter (fun d => born_in 3 d = true) [boris; anna])
       end two_people)
  /\ (3 < 1 \/ 12 < 3 -> filter (fun d => born_in 3 d = true) [boris; anna] = []).
Proof.
  apply (select_people_prints_matches 1%positive 3 [boris; anna] two_people);
    apply two_people_records.
Defined.

Example select_people_example :
  stdout (select_people 1%positive 3 two_people).2
  = [Msg_selected 1 (py_str "Anna") (py_str "Ivanova")]
  /\ stdout (select_people 1%positive 1 two_people).2
     = [Msg_selected 1 (py_str "Boris") (py_str "Petrov")]
  /\ stdout (select_people 1%positive 13 two_people).2 = [Msg_not_found]
  /\ stdout (select_people 1%positive 0 two_people).2 = [Msg_not_found]
  /\ stdout (select_people 1%positive (-5) two_people).2 = [Msg_not_found].
Proof. repeat split; vm_compute; reflexivity. Qed.

(** C6.  When the date does not parse, [add_person] raises [ValueError]
    and the state is the one it started from: nothing was appended. *)
Theorem add_person_bad_date_raises (st : state) (people : loc)
    (name surname text zodiac : string) :
  strptime_dmY text = None ->
  add_person people name surname text zodiac st = (Raised ValueError, st).
Proof.
  intros Ht. unfold add_person, strptime. rewrite Ht. reflexivity.
Qed.

Lemma add_person_bad_date_raises_witness :
  add_person 1%positive "Carl" "Berg" "1979-09-07" "Virgo" two_people
  = (Raised ValueError, two_people).
Proof. apply add_person_bad_date_raises. reflexivity. Defined.

(** C7.  [validate_person] never raises, whatever the value and the
    schema: it returns true and prints nothing when the validator finds no
    error, and returns false after printing the errors otherwise.  For
    [person_schema] the verdict is [conforms]. *)
Theorem validate_person_never_raises (j : json) (sch : schema) (st : state) :
  (exists b st',
     validate_person j sch st = (Ok b, st')
     /\ (b = true -> iter_errors None sch j = [] /\ st' = st)
     /\ (b = false -> exists e es,
           iter_errors None sch j = e :: es
           /\ st' = add_stdout (Msg_schema_mismatch (e :: es)) st))
  /\ (validate_person j person_schema st).1 = Ok (conforms j).
Proof.
  split.
  - rewrite validate_person_run.
    destruct (iter_errors None sch j) as [|e es].
    + exists true, st. by repeat split.
    + eexists false, _. split; [done|]. split; [done|]. intros _. by exists e, es.
  - rewrite validate_person_conforms. by destruct (conforms j).
Qed.

Example validate_person_example :
  validate_person (JArr [JInt 1]) person_schema empty_state
  = (Ok false, add_stdout (Msg_schema_mismatch [Not_of_type [] T_object]) empty_state)
  /\ validate_person (JObj {[ "name" := JInt 3 ]}) person_schema empty_state
     = (Ok false,
        add_stdout (Msg_schema_mismatch
          [ Not_of_type ["name"] T_string;
            Required_property "surname";
            Required_property "date_of_birth";
            Required_property "zodiac_sign" ]) empty_state).
Proof. split; vm_compute; reflexivity. Qed.




Example unpadded_dates_example :
  date_text false false 1985 1 1 = "1.1.1985"
  /\ date_text false true 1985 1 1 = "1.01.1985"
  /\ date_text true false 1985 1 1 = "01.1.1985"
  /\ date_text true true 1985 1 1 = "01.01.1985"
  /\ saved_date_text 1985 1 1 = "01.01.1985"
  /\ saved_date_text 999 1 1 = "01.01.999"
  /\ (cli_add "people.json" "Boris" "Petrov" "1.01.1985" "Aquarius" people_file).1 = Ok tt
  /\ files (cli_add "people.json" "Boris" "Petrov" "1.01.1985" "Aquarius" people_file).2
       !! "data/people.json"
     = Some (Some (JArr
         [ JObj (person_json "Boris" "Petrov" "01.01.1985" "Aquarius");
           JObj (<["date_of_birth" := JStr "15.03.1990"]> anna_json) ])).
Proof. repeat split; vm_compute; reflexivity. Qed.

(** C9.  [save_people] changes no object that exists: whether it returns
    or raises, every object of the heap is afterwards what it was, so the
    list and its records hold the same values, the parsed dates too.  The
    dictionaries it writes are new objects. *)
Theorem save_people_keeps_records (file_name : string) (staff : loc) (st : state) :
  heap st ⊆ heap (save_people file_name staff st).2
  /\ (forall ds, holds_records (heap st) staff ds ->
        holds_records (heap (save_people file_name staff st).2) staff ds).
Proof.
  pose proof (keeps_heap_save_people file_name staff st) as Hsub.
  split; [done|]. intros ds (items & Hp & Hitems). exists items. split.
  - exact (lookup_weaken _ _ _ _ Hp Hsub).
  - eapply Forall2_impl; [exact Hitems|]. intros l d Hl. cbn beta in Hl |- *.
    exact (lookup_weaken _ _ _ _ Hl Hsub).
Qed.

Example save_people_example :
  (save_people "people.json" 1%positive two_people).1 = Ok tt
  /\ heap (save_people "people.json" 1%positive two_people).2 !! 3%positive
     = Some (PyDict anna)
  /\ heap (save_people "people.json" 1%positive two_people).2 !! 5%positive
     = Some (PyDict (<["date_of_birth" := py_str "15.03.1990"]> anna)).
Proof. repeat split; vm_compute; reflexivity. Qed.

(** C10.  Keys beyond the four of the schema are carried along for the
    elements that loading keeps, which are those that validate and whose
    date parses: every such element gives a record with the same value
    under every key but the date, and saving the loaded list writes, for
    every such element and in the same order, an object with the same
    value under every key but the date.  An element that validates but
    whose date does not parse is dropped, with all its keys: the lemma
    after this one has such an element. *)
Theorem extra_keys_are_carried (file_name file_name' : string) (elems : list json)
    (st : state) :
  files st !! os_path_join "data" file_name = Some (Some (JArr elems)) ->
  exists people st1 st2 ds docs,
    load_people file_name st = (Ok people, st1)
    /\ holds_records (heap st1) people ds
    /\ Forall2 same_but_date_rec (filter accepted elems) ds
    /\ save_people file_name' people st1 = (Ok tt, st2)
    /\ files st2 !! os_path_join "data" file_name' = Some (Some (JArr docs))
    /\ Forall2 same_but_date_doc (filter accepted elems) docs.
Proof.
  intros Hfile.
  destruct (load_people_run file_name elems st Hfile)
    as (st1 & Hrun1 & Hrec1 & Hsub1 & Hf1 & Ho1).
  destruct (records_saved _ (load_people_records elems)) as (docs & Hsave).
  destruct (save_people_run file_name' _ _ docs st1 Hrec1 Hsave)
    as (st2 & Hrun2 & Hsub2 & Hf2 & Ho2).
  exists (fresh (dom (heap st))), st1, st2, (omap load_record elems), docs.
  split; [done|]. split; [done|]. split.
  { eapply Forall2_impl; [apply filter_accepted_omap|].
    intros j rec (m & dt & -> & _ & _ & ->)%load_record_Some.
    exists m. split; [done|]. intros k Hk.
    by rewrite lookup_insert_ne, lookup_fmap. }
  split; [done|]. split; [rewrite Hf2; apply lookup_insert_eq|].
  eapply Forall2_impl.
  { eapply Forall2_compose; [apply filter_accepted_omap|].
    apply mapM_Some, Hsave. }
  intros j doc (rec & (m & dt & -> & _ & _ & ->)%load_record_Some & Hs).
  rewrite saved_record_loaded in Hs. simplify_eq.
  eexists m, _. split; [done|]. split; [done|].
  intros k Hk. by rewrite lookup_insert_ne.
Qed.

Lemma extra_keys_are_carried_witness :
  exists people st1 st2 ds docs,
    load_people "people.json" people_file = (Ok people, st1)
    /\ holds_records (heap st1) people ds
    /\ Forall2 same_but_date_rec
         (filter accepted file_elems) ds
    /\ save_people "copy.json" people st1 = (Ok tt, st2)
    /\ files st2 !! os_path_join "data" "copy.json" = Some (Some (JArr docs))
    /\ Forall2 same_but_date_doc
         (filter accepted file_elems) docs.
Proof. apply extra_keys_are_carried. reflexivity. Defined.

(** The element of [iso_file] validates and has the key [nickname]; its
    date is no date for [strptime], so loading prints the message about
    the date and keeps nothing. *)
Lemma validated_element_is_dropped :
  validate_person (JObj iso_dated) person_schema iso_file = (Ok true, iso_file)
  /\ iso_dated !! "nickname" = Some (JStr "Anya")
  /\ filter accepted [JObj iso_dated] = []
  /\ load_people "people.json" iso_file
     = (Ok 1%positive, (load_people "people.json" iso_file).2)
  /\ heap (load_people "people.json" iso_file).2 = {[ 1%positive := PyList [] ]}
  /\ stdout (load_people "people.json" iso_file).2 = [Msg_date_error 1].
Proof. repeat split; vm_compute; reflexivity. Qed.

Example extra_keys_example :
  filter accepted file_elems
  = [JObj anna_json]
  /\ heap (load_people "people.json" people_file).2 !! 2%positive
     = Some (PyDict (<["date_of_birth" := PDatetime (mk_datetime 1990 3 15)]>
                       (PJson <$> anna_json)))
  /\ files ((people <- load_people "people.json" ;; save_people "copy.json" people)
              people_file).2 !! "data/copy.json"
     = Some (Some (JArr [JObj (<["date_of_birth" := JStr "15.03.1990"]> anna_json)]))
  /\ (<["date_of_birth" := JStr "15.03.1990"]> anna_json) !! "nickname"
     = Some (JStr "Anya").
Proof. repeat split; vm_compute; reflexivity. Qed.

(** * The examples of the description *)

(** Anna (Pisces) is added, then Boris (Aquarius): the list holds Boris,
    then Anna. *)
Example add_two_people_example :
  let run :=
    (people <- alloc (PyList []) ;;
     people <- add_person people "Anna" "Ivanova" "15.03.1990" "Pisces" ;;
     add_person people "Boris" "Petrov" "01.01.1985" "Aquarius") empty_state in
  run.1 = Ok 1%positive
  /\ heap run.2 !! 1%positive = Some (PyList [3%positive; 2%positive])
  /\ heap run.2 !! 3%positive = Some (PyDict boris)
  /\ heap run.2 !! 2%positive = Some (PyDict anna).
Proof. repeat split; vm_compute; reflexivity. Qed.

(** Of records born in the months 1, 5, 5 and 12, the month 5 selects the
    second and the third, in that order, and the month 2 none. *)
Example select_months_example :
  let born (name : string) (month : Z) :=
    PyDict (person_dict name "" (mk_datetime 2000 month 1) "") in
  let st :=
    mk_state {[ 1%positive := PyList [2%positive; 3%positive; 4%positive; 5%positive];
                2%positive := born "a" 1; 3%positive := born "b" 5;
                4%positive := born "c" 5; 5%positive := born "d" 12 ]} ∅ [] in
  stdout (select_people 1%positive 5 st).2
  = [ Msg_selected 1 (py_str "b") (py_str ""); Msg_selected 2 (py_str "c") (py_str "") ]
  /\ stdout (select_people 1%positive 2 st).2 = [Msg_not_found].
Proof. split; vm_compute; reflexivity. Qed.

(** * Further properties of the code

    What follows is read off the code alone: the failures of the
    functions, the order that adding keeps, the commands as compositions
    of the functions, and the table of [list_people]. *)

(** ** Loading any document *)

Lemma py_iter_run (doc : json) (st : state) :
  py_iter doc st =
  match iter_elems doc with
  | Some elems => (Ok elems, st)
  | None => (Raised TypeError, st)
  end.
Proof. by destruct doc. Qed.

Lemma load_people_run_doc (file_name : string) (doc : json) (elems : list json)
    (st : state) :
  files st !! os_path_join "data" file_name = Some (Some doc) ->
  iter_elems doc = Some elems ->
  exists st',
    load_people file_name st = (Ok (fresh (dom (heap st))), st')
    /\ holds_records (heap st') (fresh (dom (heap st))) (omap load_record elems)
    /\ heap st ⊆ heap st'
    /\ files st' = files st
    /\ stdout st' = stdout st ++ load_output elems.
Proof.
  intros Hfile Hiter. unfold load_people.
  unfold bind at 1. unfold json_load at 1. rewrite Hfile.
  unfold bind at 1. unfold alloc at 1.
  set (rp := fresh (dom (heap st))).
  set (st1 := set_heap (insert rp _) st).
  unfold bind at 1. rewrite py_iter_run, Hiter.
  destruct (load_loop rp elems 0 [] [] st1) as (st' & Hrun & Hrec & Hframe & Hf & Ho).
  { apply lookup_insert_eq. }
  { constructor. }
  rewrite (bind_Ok _ _ _ _ _ Hrun). unfold ret.
  exists st'. split; [done|]. split; [done|]. split; [|split; [done|]].
  - apply map_subseteq_spec. intros l o Hl. apply Hframe.
    + by eapply fresh_ne.
    + cbn. rewrite lookup_insert_ne; [done|].
      intros E. symmetry in E. by eapply fresh_ne in E.
  - rewrite Ho. cbn. f_equal.
Qed.

Lemma load_people_no_iter (file_name : string) (doc : json) (st : state) :
  files st !! os_path_join "data" file_name = Some (Some doc) ->
  iter_elems doc = None ->
  exists st',
    load_people file_name st = (Raised TypeError, st')
    /\ heap st ⊆ heap st' /\ files st' = files st /\ stdout st' = stdout st.
Proof.
  intros Hfile Hiter.
  unfold load_people, bind, json_load. rewrite Hfile. cbn.
  rewrite py_iter_run, Hiter. eexists. split; [done|]. cbn.
  split; [|done]. apply insert_subseteq, fresh_lookup.
Qed.

(** X1.  When the file holds a JSON document that is no array, no object
    and no string, that is [null], a boolean or a number, [load_people]
    raises [TypeError] at its loop: nothing is printed, no file is changed
    and the objects that existed are as they were. *)
Theorem load_people_of_scalar (file_name : string) (doc : json) (st : state) :
  files st !! os_path_join "data" file_name = Some (Some doc) ->
  (forall l, doc <> JArr l) ->
  (forall m, doc <> JObj m) ->
  (forall s, doc <> JStr s) ->
  exists st',
    load_people file_name st = (Raised TypeError, st')
    /\ heap st ⊆ heap st' /\ files st' = files st /\ stdout st' = stdout st.
Proof.
  intros Hfile Harr Hobj Hstr. apply (load_people_no_iter file_name doc st Hfile).
  destruct doc as [| | | |s|l|m]; try done.
  - by destruct (Hstr s).
  - by destruct (Harr l).
  - by destruct (Hobj m).
Qed.

Lemma load_people_of_scalar_witness :
  exists st',
    load_people "x.json" (mk_state ∅ {[ "data/x.json" := Some (JInt 3) ]} [])
    = (Raised TypeError, st')
    /\ heap (mk_state ∅ {[ "data/x.json" := Some (JInt 3) ]} []) ⊆ heap st'
    /\ files st' = files (mk_state ∅ {[ "data/x.json" := Some (JInt 3) ]} [])
    /\ stdout st' = stdout (mk_state ∅ {[ "data/x.json" := Some (JInt 3) ]} []).
Proof.
  apply (load_people_of_scalar "x.json" (JInt 3)); [reflexivity|..];
    intros ?; discriminate.
Defined.

Example load_people_of_scalar_example :
  (load_people "x.json" (mk_state ∅ {[ "data/x.json" := Some JNull ]} [])).1
  = Raised TypeError
  /\ (load_people "x.json" (mk_state ∅ {[ "data/x.json" := Some (JBool true) ]} [])).1
     = Raised TypeError
  /\ (load_people "x.json" (mk_state ∅ {[ "data/x.json" := Some (JInt 3) ]} [])).1
     = Raised TypeError.
Proof. repeat split; vm_compute; reflexivity. Qed.

Lemma load_record_not_object (j : json) :
  (forall m, j <> JObj m) ->
  load_record j = None /\ forall cnt, load_diagnostics cnt j = not_an_object.
Proof.
  intros Hj. destruct j; try done. by destruct (Hj m).
Qed.

Lemma load_all_rejected (elems : list json) :
  Forall (fun j => forall m, j <> JObj m) elems ->
  omap load_record elems = []
  /\ load_output elems = concat (replicate (length elems) not_an_object).
Proof.
  intros H. split.
  - induction H as [|j elems Hj _ IH]; [done|].
    cbn. by rewrite (proj1 (load_record_not_object j Hj)).
  - unfold load_output.
    assert (forall f : nat -> Z,
              concat (imap (fun i j => load_diagnostics (f i) j) elems)
              = concat (replicate (length elems) not_an_object)) as Hgen; [|apply Hgen].
    induction H as [|j elems Hj _ IH]; intros f; [done|].
    cbn [imap concat length replicate].
    rewrite (proj2 (load_record_not_object j Hj)). f_equal. apply (IH (f ∘ S)).
Qed.

Lemma iter_elems_not_array (doc : json) (elems : list json) :
  (forall l, doc <> JArr l) -> iter_elems doc = Some elems ->
  Forall (fun j => forall m, j <> JObj m) elems.
Proof.
  intros Hdoc Hiter. destruct doc as [| | | |s|l|m]; try done.
  - injection Hiter as <-. apply Forall_fmap, Forall_true. done.
  - by destruct (Hdoc l).
  - injection Hiter as <-. apply Forall_fmap, Forall_true. done.
Qed.

(** X2.  A file that holds a JSON object or a JSON string is not refused:
    [load_people] goes through the keys of the object, or the characters
    of the string, rejects every one of them with the two lines of an
    element that is no object, and returns an empty list. *)
Theorem load_people_of_no_array (file_name : string) (doc : json)
    (elems : list json) (st : state) :
  files st !! os_path_join "data" file_name = Some (Some doc) ->
  (forall l, doc <> JArr l) ->
  iter_elems doc = Some elems ->
  exists people st',
    load_people file_name st = (Ok people, st')
    /\ heap st !! people = None
    /\ heap st' !! people = Some (PyList [])
    /\ stdout st' = stdout st ++ concat (replicate (length elems) not_an_object)
    /\ files st' = files st.
Proof.
  intros Hfile Hdoc Hiter.
  destruct (load_people_run_doc file_name doc elems st Hfile Hiter)
    as (st' & Hrun & (items & Hp & Hitems) & Hsub & Hf & Ho).
  destruct (load_all_rejected elems (iter_elems_not_array doc elems Hdoc Hiter))
    as [Hnone Hout].
  rewrite Hnone in Hitems. apply Forall2_nil_inv_r in Hitems as ->.
  exists (fresh (dom (heap st))), st'. split; [done|].
  split; [apply fresh_lookup|]. split; [done|]. split; [|done].
  by rewrite Ho, Hout.
Qed.

Lemma load_people_of_no_array_witness :
  exists people st',
    load_people "people.json"
      (mk_state ∅ {[ "data/people.json" := Some (JObj anna_json) ]} [])
    = (Ok people, st')
    /\ heap (mk_state ∅ {[ "data/people.json" := Some (JObj anna_json) ]} []) !! people
       = None
    /\ heap st' !! people = Some (PyList [])
    /\ stdout st'
       = stdout (mk_state ∅ {[ "data/people.json" := Some (JObj anna_json) ]} [])
         ++ concat (replicate
              (length ((fun kv : string * json => JStr kv.1) <$> map_to_list anna_json))
              not_an_object)
    /\ files st' = files (mk_state ∅ {[ "data/people.json" := Some (JObj anna_json) ]} []).
Proof.
  apply (load_people_of_no_array "people.json" (JObj anna_json)).
  - reflexivity.
  - intros l. discriminate.
  - reflexivity.
Defined.

(** ** The order of the records after adding *)

Lemma insert_by_key_fmap {A B : Type} (g : A -> B) (x : A * string)
    (l : list (A * string)) :
  insert_by_key (prod_map g id x) (prod_map g id <$> l)
  = prod_map g id <$> insert_by_key x l.
Proof.
  destruct x as [a k]. induction l as [|[b k'] l IH]; [done|]. cbn.
  destruct (String.leb k k'); [done|]. cbn. by rewrite <- IH.
Qed.

Lemma stable_sort_fmap {A B : Type} (g : A -> B) (l : list (A * string)) :
  stable_sort (prod_map g id <$> l) = prod_map g id <$> stable_sort l.
Proof.
  induction l as [|x l IH]; [done|].
  change (stable_sort (prod_map g id <$> x :: l))
    with (insert_by_key (prod_map g id x) (stable_sort (prod_map g id <$> l))).
  rewrite IH. apply (insert_by_key_fmap g x (stable_sort l)).
Qed.

Lemma record_zodiac_text (d : gmap string pyval) (z : string) :
  zodiac_of d = py_str z -> zodiac_text d = z.
Proof. unfold zodiac_text. by intros ->. Qed.

Lemma person_record_zodiac_text (d : gmap string pyval) :
  person_record d -> zodiac_of d = py_str (zodiac_text d).
Proof.
  intros [z Hz]%person_record_zodiac. by rewrite (record_zodiac_text d z Hz).
Qed.

Lemma sort_records_perm (ds : list (gmap string pyval)) : sort_records ds ≡ₚ ds.
Proof.
  unfold sort_records. rewrite stable_sort_perm, <- list_fmap_compose.
  by rewrite list_fmap_id.
Qed.

(** [add_person] on a list of records: the list then holds the records it
    had and the new one, in the order of [sort_records]. *)
Lemma add_person_sort_records (st : state) (people : loc)
    (ds : list (gmap string pyval)) (name surname text zodiac : string)
    (dt : datetime) :
  holds_records (heap st) people ds ->
  Forall person_record ds ->
  strptime_dmY text = Some dt ->
  exists st',
    add_person people name surname text zodiac st = (Ok people, st')
    /\ holds_records (heap st') people
         (sort_records (ds ++ [person_dict name surname dt zodiac]))
    /\ (forall l o, l <> people -> heap st !! l = Some o -> heap st' !! l = Some o)
    /\ files st' = files st /\ stdout st' = stdout st.
Proof.
  intros (items & Hp & Hitems) Hds Ht.
  set (newd := person_dict name surname dt zodiac).
  assert (Hkeys : Forall2 (has_zodiac (heap st)) items (zodiac_text <$> ds)).
  { apply Forall2_fmap_r. clear Hp.
    induction Hitems as [|l d items ds Hl _ IH]; [constructor|].
    apply Forall_cons in Hds as [Hd Hds]. constructor; [|by apply IH].
    exists d. split; [done|]. by apply person_record_zodiac_text. }
  pose proof (add_person_run st people items _ name surname text zodiac dt
                Hp Hkeys Ht) as Hrun. cbv zeta in Hrun.
  set (new := fresh (dom (heap st))) in *.
  set (st' := set_heap _ st) in *.
  assert (Hnew : people <> new) by by eapply fresh_ne.
  assert (Hlen : length items = length ds) by by eapply Forall2_length.
  (* the items, each with its dictionary and its key *)
  set (L := (fun p : loc * gmap string pyval => (p, zodiac_text p.2))
              <$> zip (items ++ [new]) (ds ++ [newd])).
  assert (HL1 : zip (items ++ [new]) ((zodiac_text <$> ds) ++ [zodiac])
                = prod_map fst id <$> L).
  { subst L. rewrite <- list_fmap_compose.
    replace ((zodiac_text <$> ds) ++ [zodiac]) with (zodiac_text <$> (ds ++ [newd]))
      by (rewrite fmap_app; f_equal).
    assert (length (items ++ [new]) = length (ds ++ [newd])) as Hl
      by (rewrite !length_app; cbn; lia).
    revert Hl. generalize (items ++ [new]) (ds ++ [newd]).
    induction l as [|a l IH]; intros [|b k] Hl; simplify_eq/=; [done|].
    f_equal. by apply IH. }
  assert (HL2 : (fun d => (d, zodiac_text d)) <$> (ds ++ [newd])
                = prod_map snd id <$> L).
  { subst L. rewrite <- list_fmap_compose.
    assert (length (items ++ [new]) = length (ds ++ [newd])) as Hl
      by (rewrite !length_app; cbn; lia).
    revert Hl. generalize (items ++ [new]) (ds ++ [newd]).
    induction l as [|a l IH]; intros [|b k] Hl; simplify_eq/=; [done|].
    f_equal. by apply IH. }
  exists st'. split; [done|]. split; [|split; [|done]].
  - unfold sort_records. fold newd. rewrite HL2.
    exists (stable_sort (prod_map fst id <$> L)).*1. split.
    { rewrite <- HL1. apply lookup_insert_eq. }
    rewrite !stable_sort_fmap, <- !list_fmap_compose.
    apply Forall2_fmap, Forall_Forall2_diag.
    rewrite stable_sort_perm. subst L. apply Forall_fmap.
    assert (Hall : Forall2 (fun l d => heap st' !! l = Some (PyDict d))
                     (items ++ [new]) (ds ++ [newd])).
    { apply Forall2_app; cbn.
      + eapply Forall2_impl; [exact Hitems|]. intros l d Hl. cbn beta in Hl |- *.
        assert (l <> new) by by eapply fresh_ne.
        assert (l <> people) by congruence.
        by rewrite !lookup_insert_ne.
      + constructor; [|done]. rewrite lookup_insert_ne by done.
        apply lookup_insert_eq. }
    eapply Forall_impl; [exact (Forall2_zip _ _ _ Hall)|].
    by intros [l d] H.
  - intros l o Hl Ho. assert (l <> new) by by eapply fresh_ne.
    cbn. by rewrite !lookup_insert_ne.
Qed.

Lemma sort_records_person (ds : list (gmap string pyval)) :
  Forall person_record ds -> Forall person_record (sort_records ds).
Proof. by rewrite sort_records_perm. Qed.

Lemma insert_by_key_head {A : Type} (a : A * string) (l : list (A * string)) :
  (forall y, head l = Some y -> key_le a y) -> insert_by_key a l = a :: l.
Proof.
  destruct l as [|y l]; [done|]. intros H. cbn.
  by rewrite (proj2 (leb_le a y) (H y eq_refl)).
Qed.

Lemma filter_all {A : Type} (P : A -> Prop) `{!forall x, Decision (P x)} (l : list A) :
  Forall P l -> filter P l = l.
Proof.
  induction 1 as [|x l Hx _ IH]; [done|]. by rewrite filter_cons_True, IH.
Qed.

Lemma filter_none {A : Type} (P : A -> Prop) `{!forall x, Decision (P x)} (l : list A) :
  Forall (fun x => ~ P x) l -> filter P l = [].
Proof.
  induction 1 as [|x l Hx _ IH]; [done|]. by rewrite filter_cons_False.
Qed.

(** Sorting a sorted list with one more item at its end puts the item
    behind the items whose key is not greater, and moves nothing else. *)
Lemma stable_sort_snoc {A : Type} (l : list (A * string)) (x : A * string) :
  StronglySorted key_le l ->
  stable_sort (l ++ [x])
  = filter (fun y => String.le y.2 x.2) l ++ x :: filter (fun y => ~ String.le y.2 x.2) l.
Proof.
  induction 1 as [|a l Hs IH Ha]; [done|].
  change (stable_sort ((a :: l) ++ [x])) with (insert_by_key a (stable_sort (l ++ [x]))).
  rewrite IH, !filter_cons.
  destruct (decide (String.le a.2 x.2)) as [Hax|Hax].
  - rewrite decide_False by tauto. apply insert_by_key_head.
    intros y Hy.
    destruct (filter (fun y => String.le y.2 x.2) l) as [|b k] eqn:Hk;
      cbn in Hy; simplify_eq; [done|].
    assert (Hb : y ∈ filter (fun y => String.le y.2 x.2) l) by (rewrite Hk; set_solver).
    apply list_elem_of_filter in Hb as [_ Hb]. by eapply Forall_forall in Ha.
  - rewrite decide_True by done.
    assert (Hall : Forall (fun y => ~ String.le y.2 x.2) l).
    { eapply Forall_impl; [exact Ha|]. intros y Hay Hyx. apply Hax.
      unfold key_le in Hay. by etrans. }
    rewrite (filter_none (fun y : A * string => String.le y.2 x.2)) by done.
    rewrite (filter_all (fun y : A * string => ~ String.le y.2 x.2)) by done.
    cbn. destruct (String.leb a.2 x.2) eqn:E.
    { apply (leb_le a x) in E. by destruct Hax. }
    f_equal. apply insert_by_key_head.
    intros y Hy. destruct l as [|b k]; cbn in Hy; simplify_eq.
    by apply Forall_cons in Ha as [? _].
Qed.

Lemma keyed_sorted (ds : list (gmap string pyval)) :
  sorted_records ds ->
  StronglySorted key_le ((fun d => (d, zodiac_text d)) <$> ds).
Proof. apply StronglySorted_fmap. by intros d d'. Qed.

Lemma keyed_filter (P : string -> Prop) `{!forall z, Decision (P z)}
    (ds : list (gmap string pyval)) :
  (filter (fun y : gmap string pyval * string => P y.2)
     ((fun d => (d, zodiac_text d)) <$> ds)).*1
  = filter (fun d => P (zodiac_text d)) ds.
Proof.
  induction ds as [|d ds IH]; [done|].
  rewrite fmap_cons, !filter_cons. cbn.
  destruct (decide (P (zodiac_text d))); cbn; by rewrite IH.
Qed.

Lemma sort_records_sorted (ds : list (gmap string pyval)) :
  sorted_records (sort_records ds).
Proof.
  unfold sorted_records, sort_records.
  pose proof (stable_sort_sorted ((fun d => (d, zodiac_text d)) <$> ds)) as Hs.
  assert (Hk : Forall (fun y : gmap string pyval * string => y.2 = zodiac_text y.1)
                 (stable_sort ((fun d => (d, zodiac_text d)) <$> ds))).
  { rewrite stable_sort_perm. apply Forall_fmap, Forall_true. done. }
  induction Hs as [|y l Hs IH Hy]; [constructor|].
  apply Forall_cons in Hk as [Hy1 Hk]. cbn. constructor; [by apply IH|].
  apply Forall_fmap. apply Forall_forall. intros w Hw. cbn.
  rewrite Forall_forall in Hy, Hk. specialize (Hy w Hw). specialize (Hk w Hw).
  unfold key_le in Hy. by rewrite <- Hy1, <- Hk.
Qed.

Lemma sort_records_snoc (ds : list (gmap string pyval)) (d : gmap string pyval) :
  sorted_records ds ->
  sort_records (ds ++ [d])
  = filter (fun d' => String.le (zodiac_text d') (zodiac_text d)) ds
    ++ d :: filter (fun d' => ~ String.le (zodiac_text d') (zodiac_text d)) ds.
Proof.
  intros Hs. unfold sort_records. rewrite fmap_app. cbn [fmap list_fmap].
  rewrite stable_sort_snoc by by apply keyed_sorted.
  rewrite fmap_app, fmap_cons. cbn [fst snd].
  f_equal; [|f_equal].
  - exact (keyed_filter (fun z => String.le z (zodiac_text d)) ds).
  - exact (keyed_filter (fun z => ~ String.le z (zodiac_text d)) ds).
Qed.

Lemma zodiac_text_person_dict (name surname zodiac : string) (dt : datetime) :
  zodiac_text (person_dict name surname dt zodiac) = zodiac.
Proof. reflexivity. Qed.

(** X3.  [add_person] keeps a list of records a list of records: after it
    the list holds the records it had and the new one, each a well-formed
    record, in the order of their signs.  It prints nothing, writes no file
    and changes no object but the list. *)
Theorem add_person_keeps_records (st : state) (people : loc)
    (ds : list (gmap string pyval)) (name surname text zodiac : string)
    (dt : datetime) :
  holds_records (heap st) people ds ->
  Forall person_record ds ->
  strptime_dmY text = Some dt ->
  exists st' ds',
    add_person people name surname text zodiac st = (Ok people, st')
    /\ holds_records (heap st') people ds'
    /\ ds' ≡ₚ ds ++ [person_dict name surname dt zodiac]
    /\ Forall person_record ds'
    /\ sorted_records ds'
    /\ (forall l o, l <> people -> heap st !! l = Some o -> heap st' !! l = Some o)
    /\ files st' = files st
    /\ stdout st' = stdout st.
Proof.
  intros Hrec Hds Ht.
  destruct (add_person_sort_records st people ds name surname text zodiac dt
              Hrec Hds Ht) as (st' & Hrun & Hrec' & Hframe & Hf & Ho).
  exists st', (sort_records (ds ++ [person_dict name surname dt zodiac])).
  split; [done|]. split; [done|]. split; [apply sort_records_perm|].
  split; [|split; [apply sort_records_sorted|done]].
  apply sort_records_person, Forall_app. split; [done|].
  constructor; [|done]. apply person_dict_record. by eapply strptime_valid.
Qed.

Lemma add_person_keeps_records_witness :
  exists st' ds',
    add_person 1%positive "Clara" "Sidorova" "5.8.1992" "Leo" two_people
    = (Ok 1%positive, st')
    /\ holds_records (heap st') 1%positive ds'
    /\ ds' ≡ₚ [boris; anna] ++ [person_dict "Clara" "Sidorova" (mk_datetime 1992 8 5) "Leo"]
    /\ Forall person_record ds'
    /\ sorted_records ds'
    /\ (forall l o, l <> 1%positive -> heap two_people !! l = Some o ->
          heap st' !! l = Some o)
    /\ files st' = files two_people
    /\ stdout st' = stdout two_people.
Proof.
  apply add_person_keeps_records;
    [apply two_people_records | apply two_people_records | reflexivity].
Defined.

(** X4.  On a list that is in the order of the signs, [add_person] only
    inserts: the new record goes behind the records whose sign is not
    greater than its sign and before the others, and the records the list
    had keep their order. *)
Theorem add_person_inserts_in_order (st : state) (people : loc)
    (ds : list (gmap string pyval)) (name surname text zodiac : string)
    (dt : datetime) :
  holds_records (heap st) people ds ->
  Forall person_record ds ->
  sorted_records ds ->
  strptime_dmY text = Some dt ->
  exists st',
    add_person people name surname text zodiac st = (Ok people, st')
    /\ holds_records (heap st') people
         (filter (fun d => String.le (zodiac_text d) zodiac) ds
          ++ person_dict name surname dt zodiac
          :: filter (fun d => ~ String.le (zodiac_text d) zodiac) ds).
Proof.
  intros Hrec Hds Hsorted Ht.
  destruct (add_person_sort_records st people ds name surname text zodiac dt
              Hrec Hds Ht) as (st' & Hrun & Hrec' & _).
  exists st'. split; [done|].
  by rewrite (sort_records_snoc ds _ Hsorted) in Hrec'.
Qed.

Lemma add_person_inserts_in_order_witness :
  exists st',
    add_person 1%positive "Clara" "Sidorova" "5.8.1992" "Leo" two_people
    = (Ok 1%positive, st')
    /\ holds_records (heap st') 1%positive
         (filter (fun d => String.le (zodiac_text d) "Leo") [boris; anna]
          ++ person_dict "Clara" "Sidorova" (mk_datetime 1992 8 5) "Leo"
          :: filter (fun d => ~ String.le (zodiac_text d) "Leo") [boris; anna]).
Proof.
  apply add_person_inserts_in_order;
    [apply two_people_records | apply two_people_records | | reflexivity].
  repeat constructor.
Defined.

Example add_person_inserts_example :
  filter (fun d => String.le (zodiac_text d) "Leo") [boris; anna]
  ++ person_dict "Clara" "Sidorova" (mk_datetime 1992 8 5) "Leo"
  :: filter (fun d => ~ String.le (zodiac_text d) "Leo") [boris; anna]
  = [boris; person_dict "Clara" "Sidorova" (mk_datetime 1992 8 5) "Leo"; anna].
Proof. reflexivity. Qed.

(** ** The commands *)

Lemma four_digit_year_person_dict (name surname zodiac : string) (dt : datetime) :
  1000 <= dt_year dt -> four_digit_year (person_dict name surname dt zodiac).
Proof. intros Hy. by exists dt. Qed.

Lemma cli_add_run (filename : string) (doc : json) (elems : list json)
    (name surname text zodiac : string) (dt : datetime) (st : state) :
  files st !! os_path_join "data" filename = Some (Some doc) ->
  iter_elems doc = Some elems ->
  strptime_dmY text = Some dt ->
  exists st' docs,
    cli_add filename name surname text zodiac st = (Ok tt, st')
    /\ mapM saved_record
         (sort_records (omap load_record elems ++ [person_dict name surname dt zodiac]))
       = Some docs
    /\ files st' = <[os_path_join "data" filename := Some (JArr docs)]> (files st)
    /\ stdout st' = stdout st ++ load_output elems
    /\ heap st ⊆ heap st'
    /\ (Forall four_digit_year (omap load_record elems) -> 1000 <= dt_year dt ->
        omap load_record docs
        = sort_records (omap load_record elems ++ [person_dict name surname dt zodiac])
        /\ load_output docs = []).
Proof.
  intros Hfile Hiter Ht.
  destruct (load_people_run_doc filename doc elems st Hfile Hiter)
    as (st1 & Hload & Hrec1 & Hh1 & Hf1 & Ho1).
  set (people := fresh (dom (heap st))) in *.
  pose proof (load_people_records elems) as Hds.
  destruct (add_person_sort_records st1 people _ name surname text zodiac dt
              Hrec1 Hds Ht) as (st2 & Hadd & Hrec2 & Hh2 & Hf2 & Ho2).
  set (ds := sort_records _) in *.
  assert (Hds2 : Forall person_record ds).
  { apply sort_records_person, Forall_app. split; [done|].
    constructor; [|done]. apply person_dict_record. by eapply strptime_valid. }
  destruct (records_saved ds Hds2) as (docs & Hdocs).
  destruct (save_people_run filename people ds docs st2 Hrec2 Hdocs)
    as (st3 & Hsave & Hh3 & Hf3 & Ho3).
  exists st3, docs. unfold cli_add.
  rewrite (bind_Ok _ _ _ _ _ Hload), (bind_Ok _ _ _ _ _ Hadd).
  split; [done|]. split; [done|].
  split; [by rewrite Hf3, Hf2, Hf1|]. split; [by rewrite Ho3, Ho2, Ho1|]. split.
  - etrans; [|exact Hh3]. apply map_subseteq_spec. intros l o Hl.
    apply Hh2.
    + intros ->. subst people. by rewrite fresh_lookup in Hl.
    + by eapply lookup_weaken.
  - intros Hyears Hy.
    assert (Hds4 : Forall four_digit_year ds).
    { subst ds. rewrite sort_records_perm. apply Forall_app. split; [done|].
      constructor; [|done]. by apply four_digit_year_person_dict. }
    destruct (records_round_trip ds Hds2 Hds4) as (docs' & Hdocs' & Hback & Hquiet).
    by simplify_eq.
Qed.

(** X5.  The command [add] on a file that holds an array, with a date that
    parses: it returns; the file then holds an array of the records that
    loading keeps and the new record, in the order of their signs, each
    written with its date as text.  The command prints what loading the
    old file prints, and no object that existed is changed.  When the
    years of the dates, the new one included, have four digits, loading
    the new file gives these records and prints nothing. *)
Theorem cli_add_rewrites_file (filename : string) (elems : list json)
    (name surname text zodiac : string) (dt : datetime) (st : state) :
  files st !! os_path_join "data" filename = Some (Some (JArr elems)) ->
  strptime_dmY text = Some dt ->
  let records :=
    sort_records (omap load_record elems ++ [person_dict name surname dt zodiac]) in
  exists st' docs,
    cli_add filename name surname text zodiac st = (Ok tt, st')
    /\ files st' = <[os_path_join "data" filename := Some (JArr docs)]> (files st)
    /\ mapM saved_record records = Some docs
    /\ stdout st' = stdout st ++ load_output elems
    /\ heap st ⊆ heap st'
    /\ (Forall four_digit_year (omap load_record elems) -> 1000 <= dt_year dt ->
        omap load_record docs = records /\ load_output docs = []).
Proof.
  intros Hfile Ht records.
  destruct (cli_add_run filename (JArr elems) elems name surname text zodiac dt st
              Hfile eq_refl Ht) as (st' & docs & H1 & H2 & H3 & H4 & H5 & H6).
  by exists st', docs.
Qed.

Lemma cli_add_rewrites_file_witness :
  let records :=
    sort_records (omap load_record file_elems
                  ++ [person_dict "Boris" "Petrov" (mk_datetime 1985 1 1) "Aquarius"]) in
  exists st' docs,
    cli_add "people.json" "Boris" "Petrov" "1.1.1985" "Aquarius" people_file
    = (Ok tt, st')
    /\ files st' = <[os_path_join "data" "people.json" := Some (JArr docs)]>
                     (files people_file)
    /\ mapM saved_record records = Some docs
    /\ stdout st' = stdout people_file ++ load_output file_elems
    /\ heap people_file ⊆ heap st'
    /\ (Forall four_digit_year (omap load_record file_elems) ->
        1000 <= dt_year (mk_datetime 1985 1 1) ->
        omap load_record docs = records /\ load_output docs = []).
Proof.
  apply (cli_add_rewrites_file "people.json" file_elems "Boris" "Petrov" "1.1.1985"
           "Aquarius" (mk_datetime 1985 1 1) people_file);
    reflexivity.
Defined.

Example cli_add_rewrites_file_example :
  files (cli_add "people.json" "Boris" "Petrov" "1.1.1985" "Aquarius" people_file).2
    !! "data/people.json"
  = Some (Some (JArr
      [ JObj (person_json "Boris" "Petrov" "01.01.1985" "Aquarius");
        JObj (<["date_of_birth" := JStr "15.03.1990"]> anna_json) ]))
  /\ omap load_record
       [ JObj (person_json "Boris" "Petrov" "01.01.1985" "Aquarius");
         JObj (<["date_of_birth" := JStr "15.03.1990"]> anna_json) ]
     = [ boris;
         <["date_of_birth" := PDatetime (mk_datetime 1990 3 15)]> (PJson <$> anna_json) ].
Proof. split; vm_compute; reflexivity. Qed.

(** X6.  The command [add] with a date that does not parse, on a file that
    holds an array: it raises [ValueError] after loading and before
    saving, so that no file is written or emptied; what loading prints has
    been printed, and no object that existed is changed. *)
Theorem cli_add_bad_date_keeps_file (filename : string) (elems : list json)
    (name surname text zodiac : string) (st : state) :
  files st !! os_path_join "data" filename = Some (Some (JArr elems)) ->
  strptime_dmY text = None ->
  exists st',
    cli_add filename name surname text zodiac st = (Raised ValueError, st')
    /\ files st' = files st
    /\ stdout st' = stdout st ++ load_output elems
    /\ heap st ⊆ heap st'.
Proof.
  intros Hfile Ht.
  destruct (load_people_run_doc filename (JArr elems) elems st Hfile eq_refl)
    as (st1 & Hload & _ & Hh1 & Hf1 & Ho1).
  exists st1. split; [|done]. unfold cli_add.
  rewrite (bind_Ok _ _ _ _ _ Hload). unfold add_person, bind, strptime.
  by rewrite Ht.
Qed.

Lemma cli_add_bad_date_keeps_file_witness :
  exists st',
    cli_add "people.json" "Boris" "Petrov" "1985-01-01" "Aquarius" people_file
    = (Raised ValueError, st')
    /\ files st' = files people_file
    /\ stdout st' = stdout people_file ++ load_output file_elems
    /\ heap people_file ⊆ heap st'.
Proof.
  apply (cli_add_bad_date_keeps_file "people.json" file_elems); reflexivity.
Defined.

(** X7.  The command [select] on a file that holds an array: it returns;
    it prints what loading prints and then the records that loading keeps
    and that were born in the month, numbered from 1, or the notice when
    there is none.  No file and no object that existed is changed. *)
Theorem cli_select_prints (filename : string) (elems : list json) (month : Z)
    (st : state) :
  files st !! os_path_join "data" filename = Some (Some (JArr elems)) ->
  exists st',
    cli_select filename month st = (Ok tt, st')
    /\ stdout st'
       = stdout st ++ load_output elems ++ select_output month (omap load_record elems)
    /\ files st' = files st
    /\ heap st ⊆ heap st'.
Proof.
  intros Hfile.
  destruct (load_people_run_doc filename (JArr elems) elems st Hfile eq_refl)
    as (st1 & Hload & Hrec & Hh & Hf & Ho).
  exists (add_stdouts (select_output month (omap load_record elems)) st1).
  unfold cli_select. rewrite (bind_Ok _ _ _ _ _ Hload).
  split; [|split; [|done]].
  - apply (select_people_run _ month _ st1 Hrec).
    eapply Forall_impl; [apply load_people_records|].
    intros d [_ _ _ (dt & Hdt & _) _]. by exists dt.
  - cbn. by rewrite Ho, <- app_assoc.
Qed.

Lemma cli_select_prints_witness :
  exists st',
    cli_select "people.json" 3 people_file = (Ok tt, st')
    /\ stdout st'
       = stdout people_file ++ load_output file_elems
         ++ select_output 3 (omap load_record file_elems)
    /\ files st' = files people_file
    /\ heap people_file ⊆ heap st'.
Proof. apply (cli_select_prints "people.json" file_elems 3 people_file). reflexivity. Defined.

Example cli_select_example :
  stdout (cli_select "people.json" 3 people_file).2
  = [ Msg_schema_mismatch [Required_property "date_of_birth"]; Msg_invalid_person;
      Msg_schema_mismatch [Not_of_type [] T_object]; Msg_invalid_person;
      Msg_date_error 4;
      Msg_selected 1 (py_str "Anna") (py_str "Ivanova") ].
Proof. vm_compute. reflexivity. Qed.

(** ** Saving what cannot be saved *)

Lemma saved_record_formatted (d : gmap string pyval) :
  saved_record d = formatted d ≫= dict_to_json.
Proof. unfold saved_record, formatted. by repeat case_match. Qed.

(** The comprehension of [save_people] on any list of dictionaries: it
    stops with [AttributeError] at the first one without a date. *)
Lemma save_copies_any (items : list loc) (ds : list (gmap string pyval)) (st : state) :
  Forall2 (fun l d => heap st !! l = Some (PyDict d)) items ds ->
  exists r st',
    map_M (fun person =>
      d <- mapping_of person ;;
      text <- strftime (dict_get d "date_of_birth" py_None) ;;
      alloc (PyDict (<["date_of_birth" := py_str text]> d))) items st
    = (r, st')
    /\ heap st ⊆ heap st' /\ files st' = files st /\ stdout st' = stdout st
    /\ match mapM formatted ds with
       | Some cs =>
           exists copies, r = Ok copies
             /\ Forall2 (fun c d => heap st' !! c = Some (PyDict d)) copies cs
       | None => r = Raised AttributeError
       end.
Proof.
  revert items st. induction ds as [|d ds IH]; intros items st Hl.
  - apply Forall2_nil_inv_r in Hl as ->. exists (Ok []), st. cbn.
    repeat split; try done. by exists [].
  - apply Forall2_cons_inv_r in Hl as (l & items' & Hd & Hl & ->).
    cbn [map_M]. unfold bind at 1. unfold bind at 1.
    rewrite (mapping_of_run _ _ _ Hd). cbn [mapM].
    assert (Hfd : formatted d
                  = match d !! "date_of_birth" with
                    | Some (PDatetime dt) =>
                        Some (<["date_of_birth" := py_str (strftime_dmY dt)]> d)
                    | _ => None
                    end) by done.
    rewrite Hfd. clear Hfd. unfold dict_get at 1.
    destruct (d !! "date_of_birth") as [[j|dt]|] eqn:Hdt; cbn [strftime py_None].
    { exists (Raised AttributeError), st. by repeat split. }
    2:{ exists (Raised AttributeError), st. by repeat split. }
    unfold bind at 1. unfold ret at 1. unfold alloc at 1.
    set (c := fresh (dom (heap st))).
    set (st1 := set_heap (insert c _) st).
    assert (Hsub : heap st ⊆ heap st1) by apply insert_subseteq, fresh_lookup.
    destruct (IH items' st1) as (r & st' & Hrun & Hsub' & Hf & Ho & Hres).
    { eapply Forall2_impl; [exact Hl|]. intros l' d' Hl'. cbn beta.
      exact (lookup_weaken _ _ _ _ Hl' Hsub). }
    unfold bind at 1. rewrite Hrun. cbn [mbind option_bind].
    destruct (mapM formatted ds) as [cs|]; cbn [mbind option_bind mret option_ret].
    + destruct Hres as (copies & -> & Hcs). unfold ret.
      exists (Ok (c :: copies)), st'. split; [done|]. split; [by etrans|].
      split; [done|]. split; [done|]. exists (c :: copies). split; [done|].
      constructor; [|done]. eapply lookup_weaken; [|exact Hsub'].
      apply lookup_insert_eq.
    + subst r. exists (Raised AttributeError), st'. split; [done|].
      split; [by etrans|]. done.
Qed.

Lemma mapM_saved_formatted (ds : list (gmap string pyval)) :
  mapM saved_record ds = mapM formatted ds ≫= mapM dict_to_json.
Proof.
  induction ds as [|d ds IH]; [done|]. cbn. rewrite IH, saved_record_formatted.
  destruct (formatted d) as [c|]; cbn; [|done].
  destruct (mapM formatted ds) as [cs|]; cbn; [done|].
  by destruct (dict_to_json c).
Qed.

(** [save_people] on any list of dictionaries. *)
Lemma save_people_any (file_name : string) (staff : loc)
    (ds : list (gmap string pyval)) (st : state) :
  holds_records (heap st) staff ds ->
  exists r st',
    save_people file_name staff st = (r, st')
    /\ heap st ⊆ heap st' /\ stdout st' = stdout st
    /\ match mapM formatted ds with
       | None => r = Raised AttributeError /\ files st' = files st
       | Some cs =>
           match mapM dict_to_json cs with
           | None =>
               r = Raised TypeError
               /\ files st' = <[os_path_join "data" file_name := None]> (files st)
           | Some docs =>
               r = Ok tt
               /\ files st'
                  = <[os_path_join "data" file_name := Some (JArr docs)]> (files st)
           end
       end.
Proof.
  intros (items & Hp & Hl). unfold save_people.
  rewrite (bind_Ok _ _ _ _ _ (list_items_run _ _ _ Hp)).
  destruct (save_copies_any items ds st Hl) as (r & st1 & Hrun & Hsub & Hf & Ho & Hres).
  destruct (mapM formatted ds) as [cs|].
  2:{ subst r. exists (Raised AttributeError), st1.
      by rewrite (bind_Raised _ _ _ _ _ Hrun). }
  destruct Hres as (copies & -> & Hcs).
  rewrite (bind_Ok _ _ _ _ _ Hrun).
  unfold bind at 1. unfold alloc at 1.
  set (sf := fresh (dom (heap st1))).
  set (st2 := set_heap (insert sf _) st1).
  unfold bind at 1. unfold open_w at 1.
  set (st3 := set_files _ st2).
  assert (Hsf : heap st3 !! sf = Some (PyList copies)) by apply lookup_insert_eq.
  unfold json_dump.
  rewrite (bind_Ok _ _ _ _ _ (list_items_run _ _ _ Hsf)).
  erewrite (bind_Ok (map_M _ _)); cycle 1.
  { apply (map_M_reads _ _ cs). eapply Forall2_impl; [exact Hcs|].
    intros c d Hc. cbn beta. apply dict_of_run. cbn.
    eapply lookup_weaken; [exact Hc|]. apply insert_subseteq, fresh_lookup. }
  assert (Hsub3 : heap st ⊆ heap st3).
  { etrans; [exact Hsub|]. apply insert_subseteq, fresh_lookup. }
  destruct (mapM dict_to_json cs) as [docs|].
  - eexists _, _. split; [reflexivity|].
    split; [exact Hsub3|]. split; [exact Ho|]. split; [reflexivity|].
    cbn. by rewrite insert_insert_eq, Hf.
  - exists (Raised TypeError), st3. split; [reflexivity|].
    split; [exact Hsub3|]. split; [exact Ho|]. split; [reflexivity|].
    cbn. by rewrite Hf.
Qed.

(** X8.  When a record of the list has no date (no [date_of_birth], or a
    value there that is no [datetime]), [save_people] raises
    [AttributeError] before it opens the file: no file is written or
    emptied, nothing is printed, and the records are as they were. *)
Theorem save_people_without_date (file_name : string) (staff : loc)
    (ds : list (gmap string pyval)) (st : state) :
  holds_records (heap st) staff ds ->
  Exists (fun d => formatted d = None) ds ->
  exists st',
    save_people file_name staff st = (Raised AttributeError, st')
    /\ files st' = files st
    /\ stdout st' = stdout st
    /\ heap st ⊆ heap st'.
Proof.
  intros Hrec Hno.
  destruct (save_people_any file_name staff ds st Hrec)
    as (r & st' & Hrun & Hsub & Ho & Hres).
  rewrite (mapM_None_2 _ _ Hno) in Hres. destruct Hres as [-> Hf].
  by exists st'.
Qed.

Lemma save_people_without_date_witness :
  exists st',
    save_people "people.json" 1%positive
      (mk_state {[ 1%positive := PyList [2%positive; 3%positive];
                   2%positive := PyDict boris;
                   3%positive := PyDict (delete "date_of_birth" anna) ]}
                {[ "data/people.json" := Some (JArr []) ]} [])
    = (Raised AttributeError, st')
    /\ files st' = {[ "data/people.json" := Some (JArr []) ]}
    /\ stdout st' = []
    /\ heap (mk_state {[ 1%positive := PyList [2%positive; 3%positive];
                         2%positive := PyDict boris;
                         3%positive := PyDict (delete "date_of_birth" anna) ]}
                      {[ "data/people.json" := Some (JArr []) ]} []) ⊆ heap st'.
Proof.
  apply (save_people_without_date "people.json" 1%positive
           [boris; delete "date_of_birth" anna]).
  - exists [2%positive; 3%positive]. split; [reflexivity|]. repeat constructor.
  - apply Exists_cons_tl, Exists_cons_hd. reflexivity.
Defined.

(** X9.  When every record has its date but one of them holds a value
    that is no JSON (a [datetime] under another key), [save_people] raises
    [TypeError] after it has opened the file: the file is left without a
    JSON document, so that loading it raises [JSONDecodeError]. *)
Theorem save_people_cuts_file_short (file_name : string) (staff : loc)
    (ds cs : list (gmap string pyval)) (st : state) :
  holds_records (heap st) staff ds ->
  mapM formatted ds = Some cs ->
  Exists (fun d => exists k dt, k <> "date_of_birth" /\ d !! k = Some (PDatetime dt)) ds ->
  exists st',
    save_people file_name staff st = (Raised TypeError, st')
    /\ files st' = <[os_path_join "data" file_name := None]> (files st)
    /\ load_people file_name st' = (Raised JSONDecodeError, st')
    /\ stdout st' = stdout st
    /\ heap st ⊆ heap st'.
Proof.
  intros Hrec Hcs Hbad.
  destruct (save_people_any file_name staff ds st Hrec)
    as (r & st' & Hrun & Hsub & Ho & Hres).
  rewrite Hcs in Hres.
  assert (Hnone : mapM dict_to_json cs = None).
  { apply mapM_None. apply mapM_Some in Hcs. clear Hrun Hrec Hres.
    induction Hcs as [|d c ds cs Hc _ IH]; [by apply Exists_nil in Hbad|].
    apply Exists_cons in Hbad as [(k & dt & Hk & Hd)|Hbad];
      [|by apply Exists_cons_tl, IH].
    apply Exists_cons_hd. unfold formatted in Hc.
    destruct (d !! "date_of_birth") as [[|dt']|]; simplify_eq.
    unfold dict_to_json. rewrite decide_False; [done|].
    intros Hall. specialize (Hall k (PDatetime dt)).
    rewrite lookup_insert_ne in Hall by done. by destruct (Hall Hd). }
  rewrite Hnone in Hres. destruct Hres as [-> Hf].
  exists st'. split; [done|]. split; [done|]. split; [|done].
  unfold load_people, bind, json_load. by rewrite Hf, lookup_insert_eq.
Qed.

Lemma save_people_cuts_file_short_witness :
  exists st',
    save_people "people.json" 1%positive
      (mk_state {[ 1%positive := PyList [2%positive];
                   2%positive := PyDict (<["seen" := PDatetime (mk_datetime 2020 1 1)]> anna) ]}
                {[ "data/people.json" := Some (JArr []) ]} [])
    = (Raised TypeError, st')
    /\ files st' = <[os_path_join "data" "people.json" := None]>
                     {[ "data/people.json" := Some (JArr []) ]}
    /\ load_people "people.json" st' = (Raised JSONDecodeError, st')
    /\ stdout st' = []
    /\ heap (mk_state {[ 1%positive := PyList [2%positive];
                         2%positive := PyDict (<["seen" := PDatetime (mk_datetime 2020 1 1)]> anna) ]}
                      {[ "data/people.json" := Some (JArr []) ]} []) ⊆ heap st'.
Proof.
  eapply (save_people_cuts_file_short "people.json" 1%positive
            [<["seen" := PDatetime (mk_datetime 2020 1 1)]> anna]).
  - exists [2%positive]. split; [reflexivity|]. repeat constructor.
  - reflexivity.
  - apply Exists_cons_hd. exists "seen", (mk_datetime 2020 1 1). split; [done|].
    reflexivity.
Defined.

(** ** The table *)

Lemma add_lines_nil (c : console) : add_lines [] c = c.
Proof. destruct c. unfold add_lines. cbn. by rewrite app_nil_r. Qed.

Lemma add_lines_app (ls ls' : list line) (c : console) :
  add_lines ls' (add_lines ls c) = add_lines (ls ++ ls') c.
Proof. unfold add_lines. cbn. by rewrite app_assoc. Qed.

Lemma lift_reads {A : Type} (m : M A) (r : result A) (c : console) :
  m (as_state c) = (r, as_state c) -> lift m c = (r, c).
Proof.
  intros H. unfold lift. rewrite H. cbn. rewrite app_nil_r. by destruct c.
Qed.

Lemma bind_T_Ok {A B : Type} (m : T A) (f : A -> T B) (c c' : console) (a : A) :
  m c = (Ok a, c') -> bind_T m f c = f a c'.
Proof. unfold bind_T. by intros ->. Qed.

Lemma bind_T_Raised {A B : Type} (m : T A) (f : A -> T B) (c c' : console) (e : exn) :
  m c = (Raised e, c') -> bind_T m f c = (Raised e, c').
Proof. unfold bind_T. by intros ->. Qed.

Lemma row_error_None (d : gmap string pyval) :
  row_error d = None ->
  exists dt, d !! "date_of_birth" = Some (PDatetime dt)
    /\ formattable (dict_get d "name" (py_str "")) = true
    /\ formattable (dict_get d "surname" (py_str "")) = true
    /\ formattable (dict_get d "zodiac_sign" (py_str "")) = true.
Proof.
  unfold row_error. destruct (d !! "date_of_birth") as [[|dt]|]; try done.
  destruct (formattable (dict_get d "name" _)); [|done].
  destruct (formattable (dict_get d "surname" _)); [|done].
  destruct (formattable (dict_get d "zodiac_sign" _)); [|done].
  intros _. by exists dt.
Qed.

(** One turn of the loop of [list_people]. *)
Lemma list_people_step (idx : Z) (person : loc) (d : gmap string pyval) (c : console) :
  mem c !! person = Some (PyDict d) ->
  (d <- lift (dict_of person) ;;
   birth_date_str <- lift (strftime (dict_get d "date_of_birth" py_None)) ;;
   row <- format_row idx (dict_get d "name" (py_str ""))
                         (dict_get d "surname" (py_str ""))
                         (dict_get d "zodiac_sign" (py_str ""))
                         birth_date_str ;;
   show row)%table c
  = match row_error d with
    | None =>
        (Ok tt, add_lines [Row idx (dict_get d "name" (py_str ""))
                             (dict_get d "surname" (py_str ""))
                             (dict_get d "zodiac_sign" (py_str ""))
                             (birth_date_text d)] c)
    | Some e => (Raised e, c)
    end.
Proof.
  intros Hd.
  rewrite (bind_T_Ok _ _ c c d) by (apply lift_reads, dict_of_run; exact Hd).
  unfold row_error, birth_date_text. unfold dict_get at 1.
  destruct (d !! "date_of_birth") as [[j|dt]|]; cbn [py_None strftime].
  - by rewrite (bind_T_Raised _ _ c c AttributeError) by by apply lift_reads.
  - rewrite (bind_T_Ok _ _ c c (strftime_dmY dt)) by by apply lift_reads.
    unfold format_row.
    by destruct (formattable (dict_get d "name" _)
                 && formattable (dict_get d "surname" _)
                 && formattable (dict_get d "zodiac_sign" _)).
  - by rewrite (bind_T_Raised _ _ c c AttributeError) by by apply lift_reads.
Qed.

(** The turns of the loop on records that can be printed. *)
Lemma list_people_rows (items rest : list loc) (ds : list (gmap string pyval))
    (i : nat) (c : console) :
  Forall2 (fun l d => mem c !! l = Some (PyDict d)) items ds ->
  Forall (fun d => row_error d = None) ds ->
  for_enumerate (items ++ rest) (Z.of_nat i + 1) (fun idx person =>
    d <- lift (dict_of person) ;;
    birth_date_str <- lift (strftime (dict_get d "date_of_birth" py_None)) ;;
    row <- format_row idx (dict_get d "name" (py_str ""))
                          (dict_get d "surname" (py_str ""))
                          (dict_get d "zodiac_sign" (py_str ""))
                          birth_date_str ;;
    show row)%table c
  = for_enumerate rest (Z.of_nat (i + length ds) + 1) (fun idx person =>
      d <- lift (dict_of person) ;;
      birth_date_str <- lift (strftime (dict_get d "date_of_birth" py_None)) ;;
      row <- format_row idx (dict_get d "name" (py_str ""))
                            (dict_get d "surname" (py_str ""))
                            (dict_get d "zodiac_sign" (py_str ""))
                            birth_date_str ;;
      show row)%table (add_lines (imap (fun j => row_of (i + j)) ds) c).
Proof.
  intros Hl. revert i c Hl. revert items.
  induction ds as [|d ds IH]; intros items i c Hl Hok.
  - apply Forall2_nil_inv_r in Hl as ->. cbn [app length imap].
    by rewrite add_lines_nil, Nat.add_0_r.
  - apply Forall2_cons_inv_r in Hl as (l & items' & Hd & Hl & ->).
    apply Forall_cons in Hok as [Hd_ok Hok].
    cbn [app for_enumerate]. unfold bind_T at 1.
    rewrite (list_people_step _ l d c Hd), Hd_ok.
    replace (Z.of_nat i + 1 + 1) with (Z.of_nat (S i) + 1) by lia.
    rewrite (IH items' (S i)); [|done|done].
    rewrite add_lines_app, imap_cons. cbn [length].
    replace (i + S (length ds))%nat with (S i + length ds)%nat by lia.
    do 2 f_equal. unfold row_of at 2. rewrite Nat.add_0_r. f_equal.
    apply imap_ext. intros j x _. cbn. by rewrite Nat.add_succ_r.
Qed.

(** [list_people] on any list of dictionaries: it prints the head of the
    table and a row for every record up to the first one that stops it. *)
Lemma list_people_run (people : loc) (ds : list (gmap string pyval)) (c : console) :
  (exists items, mem c !! people = Some (PyList items)
     /\ Forall2 (fun l d => mem c !! l = Some (PyDict d)) items ds) ->
  Forall (fun d => row_error d = None) ds ->
  list_people people c = (Ok tt, add_lines (table ds) c).
Proof.
  intros (items & Hp & Hl) Hok. unfold list_people, table.
  unfold bind_T at 1. unfold show at 1.
  unfold bind_T at 1. unfold show at 1.
  unfold bind_T at 1. unfold show at 1.
  rewrite !add_lines_app. cbn [app].
  set (c1 := add_lines [Rule; Header; Rule] c).
  rewrite (bind_T_Ok _ _ c1 c1 items)
    by (apply lift_reads, list_items_run; exact Hp).
  pose proof (list_people_rows items [] ds 0 c1 Hl Hok) as Hrows.
  rewrite app_nil_r in Hrows. cbn [for_enumerate] in Hrows.
  unfold bind_T at 1. change 1 with (Z.of_nat 0 + 1). rewrite Hrows.
  unfold ret_T, show. subst c1. rewrite !add_lines_app. cbn [app].
  done.
Qed.

Lemma list_people_stops (people : loc) (ds ds' : list (gmap string pyval))
    (d : gmap string pyval) (e : exn) (c : console) :
  (exists items, mem c !! people = Some (PyList items)
     /\ Forall2 (fun l d => mem c !! l = Some (PyDict d)) items (ds ++ d :: ds')) ->
  Forall (fun d => row_error d = None) ds ->
  row_error d = Some e ->
  list_people people c
  = (Raised e, add_lines (Rule :: Header :: Rule :: imap row_of ds) c).
Proof.
  intros (items & Hp & Hl) Hok Hbad. unfold list_people.
  unfold bind_T at 1. unfold show at 1.
  unfold bind_T at 1. unfold show at 1.
  unfold bind_T at 1. unfold show at 1.
  rewrite !add_lines_app. cbn [app].
  set (c1 := add_lines [Rule; Header; Rule] c).
  rewrite (bind_T_Ok _ _ c1 c1 items)
    by (apply lift_reads, list_items_run; exact Hp).
  apply Forall2_app_inv_r in Hl as (items1 & items2 & Hl1 & Hl2 & ->).
  apply Forall2_cons_inv_r in Hl2 as (l & items3 & Hd & _ & ->).
  unfold bind_T at 1. change 1 with (Z.of_nat 0 + 1).
  rewrite (list_people_rows items1 (l :: items3) ds 0 c1 Hl1 Hok).
  cbn [for_enumerate]. unfold bind_T at 1.
  rewrite list_people_step with (d := d) by exact Hd.
  rewrite Hbad. subst c1. rewrite !add_lines_app. cbn [app].
  done.
Qed.

Lemma person_record_row (d : gmap string pyval) :
  person_record d ->
  exists name surname zodiac dt,
    d !! "name" = Some (py_str name) /\ d !! "surname" = Some (py_str surname)
    /\ d !! "zodiac_sign" = Some (py_str zodiac)
    /\ d !! "date_of_birth" = Some (PDatetime dt)
    /\ row_error d = None.
Proof.
  intros [[n Hn] [s Hs] [z Hz] (dt & Hdt & _) _]. exists n, s, z, dt.
  unfold row_error, dict_get. by rewrite Hn, Hs, Hz, Hdt.
Qed.

Lemma person_records_rows (ds : list (gmap string pyval)) :
  Forall person_record ds -> Forall (fun d => row_error d = None) ds.
Proof.
  intros H. eapply Forall_impl; [exact H|]. intros d Hd.
  by destruct (person_record_row d Hd) as (? & ? & ? & ? & _ & _ & _ & _ & Hrow).
Qed.

(** X10.  [list_people] on a list of records prints the rule, the titles,
    the rule, a row for every record in the order of the list, numbered
    from 1, with the date as day.month.year, and the rule; for an empty
    list these are the four lines around no row.  It returns and changes
    neither the records nor the files. *)
Theorem list_people_prints_table (people : loc) (ds : list (gmap string pyval))
    (c : console) :
  holds_records (mem c) people ds ->
  Forall person_record ds ->
  list_people people c
  = (Ok tt, add_lines (Rule :: Header :: Rule :: imap row_of ds ++ [Rule]) c).
Proof.
  intros Hrec Hds. apply (list_people_run people ds c Hrec).
  by apply person_records_rows.
Qed.

Lemma list_people_prints_table_witness :
  list_people 1%positive (mk_console (heap two_people) ∅ [])
  = (Ok tt, add_lines (Rule :: Header :: Rule :: imap row_of [boris; anna] ++ [Rule])
              (mk_console (heap two_people) ∅ [])).
Proof.
  apply (list_people_prints_table 1%positive [boris; anna]);
    apply two_people_records.
Defined.

Example list_people_example :
  screen (list_people 1%positive (mk_console (heap two_people) ∅ [])).2
  = [ Rule; Header; Rule;
      Row 1 (py_str "Boris") (py_str "Petrov") (py_str "Aquarius") "01.01.1985";
      Row 2 (py_str "Anna") (py_str "Ivanova") (py_str "Pisces") "15.03.1990";
      Rule ]
  /\ screen (list_people 1%positive
               (mk_console {[ 1%positive := PyList [] ]} ∅ [])).2
     = [Rule; Header; Rule; Rule].
Proof. split; vm_compute; reflexivity. Qed.

(** X11.  [list_people] stops at the first record that it cannot print: one
    whose date is no [datetime] ([AttributeError]), or one with [None], a
    list or a dictionary as name, surname or sign ([TypeError]).  The head
    of the table and the rows of the records before it are on the screen
    by then, the closing rule is not. *)
Theorem list_people_stops_at_record (people : loc)
    (ds ds' : list (gmap string pyval)) (d : gmap string pyval) (e : exn)
    (c : console) :
  holds_records (mem c) people (ds ++ d :: ds') ->
  Forall (fun d => row_error d = None) ds ->
  row_error d = Some e ->
  list_people people c
  = (Raised e, add_lines (Rule :: Header :: Rule :: imap row_of ds) c).
Proof. apply list_people_stops. Qed.

Lemma list_people_stops_at_record_witness :
  list_people 1%positive
    (mk_console {[ 1%positive := PyList [2%positive; 3%positive; 4%positive];
                   2%positive := PyDict boris;
                   3%positive := PyDict (<["name" := PJson JNull]> anna);
                   4%positive := PyDict anna ]} ∅ [])
  = (Raised TypeError,
     add_lines (Rule :: Header :: Rule :: imap row_of [boris])
       (mk_console {[ 1%positive := PyList [2%positive; 3%positive; 4%positive];
                      2%positive := PyDict boris;
                      3%positive := PyDict (<["name" := PJson JNull]> anna);
                      4%positive := PyDict anna ]} ∅ [])).
Proof.
  apply (list_people_stops_at_record 1%positive [boris] [anna]
           (<["name" := PJson JNull]> anna) TypeError).
  - exists [2%positive; 3%positive; 4%positive]. split; [reflexivity|].
    repeat constructor.
  - repeat constructor.
  - reflexivity.
Defined.

Lemma cli_list_run (filename : string) (elems : list json) (c : console) :
  disk c !! os_path_join "data" filename = Some (Some (JArr elems)) ->
  exists c',
    cli_list filename c = (Ok tt, c')
    /\ screen c'
       = screen c ++ (Message <$> load_output elems)
         ++ table (omap load_record elems)
    /\ disk c' = disk c
    /\ mem c ⊆ mem c'.
Proof.
  intros Hfile.
  destruct (load_people_run_doc filename (JArr elems) elems (as_state c) Hfile eq_refl)
    as (st1 & Hload & Hrec & Hh & Hf & Ho).
  set (people := fresh (dom (heap (as_state c)))) in *.
  set (c1 := {| mem := heap st1; disk := files st1;
                screen := screen c ++ (Message <$> stdout st1) |}).
  assert (Hlift : lift (load_people filename) c = (Ok people, c1)).
  { unfold lift. by rewrite Hload. }
  exists (add_lines (table (omap load_record elems)) c1).
  unfold cli_list. rewrite (bind_T_Ok _ _ _ _ _ Hlift).
  split; [|split; [|done]].
  - apply (list_people_run people _ c1 Hrec).
    apply person_records_rows, load_people_records.
  - cbn. rewrite Ho. cbn. by rewrite <- app_assoc.
Qed.

(** X12.  The command [list] on a file that holds an array: it returns;
    the screen shows what loading prints and then the table of the records
    that loading keeps, in the order of the file.  No file and no object
    that existed is changed. *)
Theorem cli_list_prints (filename : string) (elems : list json) (c : console) :
  disk c !! os_path_join "data" filename = Some (Some (JArr elems)) ->
  exists c',
    cli_list filename c = (Ok tt, c')
    /\ screen c'
       = screen c ++ (Message <$> load_output elems)
         ++ Rule :: Header :: Rule :: imap row_of (omap load_record elems) ++ [Rule]
    /\ disk c' = disk c
    /\ mem c ⊆ mem c'.
Proof. apply cli_list_run. Qed.

Lemma cli_list_prints_witness :
  exists c',
    cli_list "people.json" (mk_console ∅ (files people_file) []) = (Ok tt, c')
    /\ screen c'
       = [] ++ (Message <$> load_output file_elems)
         ++ Rule :: Header :: Rule :: imap row_of (omap load_record file_elems) ++ [Rule]
    /\ disk c' = files people_file
    /\ (∅ : gmap loc pyobj) ⊆ mem c'.
Proof.
  apply (cli_list_prints "people.json" file_elems (mk_console ∅ (files people_file) [])).
  reflexivity.
Defined.

Example cli_list_example :
  screen (cli_list "people.json" (mk_console ∅ (files people_file) [])).2
  = [ Message (Msg_schema_mismatch [Required_property "date_of_birth"]);
      Message Msg_invalid_person;
      Message (Msg_schema_mismatch [Not_of_type [] T_object]);
      Message Msg_invalid_person;
      Message (Msg_date_error 4);
      Rule; Header; Rule;
      Row 1 (py_str "Anna") (py_str "Ivanova") (py_str "Pisces") "15.03.1990";
      Rule ].
Proof. vm_compute. reflexivity. Qed.

(** ** The width of the lines *)

Lemma length_append (s t : string) :
  String.length (s +:+ t) = (String.length s + String.length t)%nat.
Proof.
  induction s as [|a s IH]; [done|].
  change (String a s +:+ t) with (String a (s +:+ t)). cbn. by rewrite IH.
Qed.

Lemma length_str_mul (a : ascii) (n : nat) : String.length (str_mul a n) = n.
Proof. induction n as [|n IH]; cbn; [done|]. by rewrite IH. Qed.

Lemma length_fmt_left (w : nat) (s : string) :
  String.length (fmt_left w s) = (w `max` String.length s)%nat.
Proof. unfold fmt_left. rewrite length_append, length_str_mul. lia. Qed.

Lemma length_fmt_center (w : nat) (s : string) :
  String.length (fmt_center w s) = (w `max` String.length s)%nat.
Proof.
  unfold fmt_center. cbv zeta. rewrite !length_append, !length_str_mul.
  pose proof (Nat.Div0.div_le_upper_bound (w - String.length s) 2
                (w - String.length s)) as Hhalf.
  lia.
Qed.

Lemma length_strftime_dmY (dt : datetime) :
  (String.length (strftime_dmY dt) <= 10)%nat.
Proof.
  unfold strftime_dmY, year_text. rewrite !length_append.
  repeat case_match; cbn; lia.
Qed.

Lemma length_row_number (idx : Z) :
  1 <= idx <= 9999 -> (String.length (pretty idx) <= 4)%nat.
Proof.
  intros Hi.
  assert (Hall : Forall (fun n : Z => (String.length (pretty n) <= 4)%nat)
                   (seqZ 1 9999)).
  { apply (bool_decide_unpack _). vm_compute. reflexivity. }
  rewrite Forall_forall in Hall. apply Hall, elem_of_seqZ. lia.
Qed.

Lemma length_row_text (idx : Z) (name surname zodiac birth : string) :
  String.length (row_text idx name surname zodiac birth)
  = (16 + (4 `max` String.length (pretty idx)) + (20 `max` String.length name)
     + (20 `max` String.length surname) + (15 `max` String.length zodiac)
     + (13 `max` String.length birth))%nat.
Proof.
  unfold row_text.
  rewrite !length_append, length_fmt_center, !length_fmt_left.
  cbn [String.length]. lia.
Qed.

(** X13.  The rows of the table line up with its rule.  The row of a
    record, among the first 9999, has a text: the number centred in 4
    columns, and name, surname, sign and date flush left in 20, 20, 15 and
    13 columns between the bars.  It is as long as the rule, 88 characters,
    when name and surname have at most 20 characters and the sign at most
    15; a longer text is not cut and makes the row longer by its excess. *)
Theorem table_rows_line_up (i : nat) (d : gmap string pyval) :
  person_record d ->
  Z.of_nat i < 9999 ->
  exists name surname zodiac text,
    d !! "name" = Some (py_str name)
    /\ d !! "surname" = Some (py_str surname)
    /\ d !! "zodiac_sign" = Some (py_str zodiac)
    /\ text_of (row_of i d) = Some text
    /\ text = row_text (Z.of_nat i + 1) name surname zodiac (birth_date_text d)
    /\ String.length text
       = (String.length rule_text + (String.length name - 20)
          + (String.length surname - 20) + (String.length zodiac - 15))%nat
    /\ String.length rule_text = 88%nat.
Proof.
  intros Hd Hi.
  destruct (person_record_row d Hd) as (n & s & z & dt & Hn & Hs & Hz & Hdt & _).
  exists n, s, z, (row_text (Z.of_nat i + 1) n s z (birth_date_text d)).
  split; [done|]. split; [done|]. split; [done|]. split.
  { unfold row_of, dict_get. by rewrite Hn, Hs, Hz. }
  split; [done|]. split; [|reflexivity].
  rewrite length_row_text. unfold birth_date_text. rewrite Hdt.
  pose proof (length_strftime_dmY dt) as Hdate.
  pose proof (length_row_number (Z.of_nat i + 1)) as Hnum.
  change (String.length rule_text) with 88%nat. lia.
Qed.

Lemma table_rows_line_up_witness :
  exists name surname zodiac text,
    anna !! "name" = Some (py_str name)
    /\ anna !! "surname" = Some (py_str surname)
    /\ anna !! "zodiac_sign" = Some (py_str zodiac)
    /\ text_of (row_of 1 anna) = Some text
    /\ text = row_text (Z.of_nat 1 + 1) name surname zodiac (birth_date_text anna)
    /\ String.length text
       = (String.length rule_text + (String.length name - 20)
          + (String.length surname - 20) + (String.length zodiac - 15))%nat
    /\ String.length rule_text = 88%nat.
Proof.
  apply (table_rows_line_up 1 anna); [|lia].
  apply person_dict_record. reflexivity.
Defined.

Example table_text_example :
  text_of Rule
  = Some "+------+----------------------+----------------------+-----------------+---------------+"
  /\ text_of (row_of 1 anna)
     = Some "|  2   | Anna                 | Ivanova              | Pisces          | 15.03.1990    |"
  /\ text_of (row_of 11 anna)
     = Some "|  12  | Anna                 | Ivanova              | Pisces          | 15.03.1990    |".
Proof. repeat split; vm_compute; reflexivity. Qed.

(** X14.  What the command [add] stores, the command [list] shows: after
    [add] on a file that holds an array, with a date that parses, when the
    years of the dates that are kept and of the new date have four digits,
    [list] on the same file prints no complaint, only the table of the
    records that were kept and the new one, in the order of their signs. *)
Theorem cli_add_then_list (filename : string) (elems : list json)
    (name surname text zodiac : string) (dt : datetime) (st : state) :
  files st !! os_path_join "data" filename = Some (Some (JArr elems)) ->
  strptime_dmY text = Some dt ->
  Forall four_digit_year (omap load_record elems) ->
  1000 <= dt_year dt ->
  exists st',
    cli_add filename name surname text zodiac st = (Ok tt, st')
    /\ forall c, disk c = files st' ->
         exists c',
           cli_list filename c = (Ok tt, c')
           /\ screen c'
              = screen c
                ++ Rule :: Header :: Rule
                   :: imap row_of
                        (sort_records (omap load_record elems
                                       ++ [person_dict name surname dt zodiac]))
                   ++ [Rule].
Proof.
  intros Hfile Ht Hyears Hy.
  destruct (cli_add_run filename (JArr elems) elems name surname text zodiac dt st
              Hfile eq_refl Ht) as (st' & docs & Hrun & _ & Hf & _ & _ & Hreload).
  destruct (Hreload Hyears Hy) as [Hback Hquiet].
  exists st'. split; [done|]. intros c Hc.
  destruct (cli_list_run filename docs c) as (c' & Hlist & Hscreen & _).
  { by rewrite Hc, Hf, lookup_insert_eq. }
  exists c'. split; [done|]. by rewrite Hscreen, Hquiet, Hback.
Qed.

Lemma file_elems_years : Forall four_digit_year (omap load_record file_elems).
Proof.
  constructor; [|constructor].
  exists (mk_datetime 1990 3 15). split; [reflexivity|]. cbn. lia.
Qed.

Lemma cli_add_then_list_witness :
  exists st',
    cli_add "people.json" "Boris" "Petrov" "1.1.1985" "Aquarius" people_file
    = (Ok tt, st')
    /\ forall c, disk c = files st' ->
         exists c',
           cli_list "people.json" c = (Ok tt, c')
           /\ screen c'
              = screen c
                ++ Rule :: Header :: Rule
                   :: imap row_of
                        (sort_records
                           (omap load_record file_elems
                            ++ [person_dict "Boris" "Petrov" (mk_datetime 1985 1 1)
                                  "Aquarius"]))
                   ++ [Rule].
Proof.
  apply (cli_add_then_list "people.json" file_elems "Boris" "Petrov" "1.1.1985"
           "Aquarius" (mk_datetime 1985 1 1) people_file);
    [reflexivity | reflexivity | apply file_elems_years | cbn; lia].
Defined.

Example cli_add_then_list_example :
  screen (cli_list "people.json"
            (mk_console ∅
               (files (cli_add "people.json" "Boris" "Petrov" "1.1.1985" "Aquarius"
                         people_file).2) [])).2
  = [ Rule; Header; Rule;
      Row 1 (py_str "Boris") (py_str "Petrov") (py_str "Aquarius") "01.01.1985";
      Row 2 (py_str "Anna") (py_str "Ivanova") (py_str "Pisces") "15.03.1990";
      Rule ].
Proof. vm_compute. reflexivity. Qed.

(** ** What [list_people] never does *)

Lemma only_prints_ret {A : Type} (a : A) : only_prints (ret_T a).
Proof. intros c. exists (Ok a), []. by rewrite add_lines_nil. Qed.

Lemma only_prints_raise {A : Type} (e : exn) : only_prints (@raise_T A e).
Proof. intros c. exists (Raised e), []. by rewrite add_lines_nil. Qed.

Lemma only_prints_show (l : line) : only_prints (show l).
Proof. intros c. by exists (Ok tt), [l]. Qed.

Lemma only_prints_bind {A B : Type} (m : T A) (f : A -> T B) :
  only_prints m -> (forall a, only_prints (f a)) -> only_prints (bind_T m f).
Proof.
  intros Hm Hf c. destruct (Hm c) as (r & ls & Hrun). unfold bind_T. rewrite Hrun.
  destruct r as [a|e].
  - destruct (Hf a (add_lines ls c)) as (r' & ls' & Hrun').
    exists r', (ls ++ ls'). by rewrite Hrun', add_lines_app.
  - by exists (Raised e), ls.
Qed.

Lemma only_prints_lift {A : Type} (m : M A) : only_reads m -> only_prints (lift m).
Proof.
  intros Hm c. destruct (Hm (as_state c)) as (r & Hrun).
  exists r, []. by rewrite (lift_reads m r c Hrun), add_lines_nil.
Qed.

Lemma only_prints_for_enumerate {A : Type} (l : list A) (idx : Z)
    (body : Z -> A -> T unit) :
  (forall i x, only_prints (body i x)) -> only_prints (for_enumerate l idx body).
Proof.
  intros Hbody. revert idx. induction l as [|x l IH]; intros idx; cbn.
  - apply only_prints_ret.
  - apply only_prints_bind; [apply Hbody|]. intros _. apply IH.
Qed.

Lemma only_reads_list_items (l : loc) : only_reads (list_items l).
Proof.
  intros st. unfold list_items, bind, deref.
  destruct (heap st !! l) as [[|]|]; by eexists.
Qed.

Lemma only_reads_dict_of (l : loc) : only_reads (dict_of l).
Proof.
  intros st. unfold dict_of, bind, deref.
  destruct (heap st !! l) as [[|]|]; by eexists.
Qed.

Lemma only_reads_strftime (v : pyval) : only_reads (strftime v).
Proof. intros st. destruct v; by eexists. Qed.

(** X15.  Whatever list it is given, and whether it returns or raises,
    [list_people] only prints: the rule, the titles and the rule come
    first, and the memory and the files are as they were. *)
Theorem list_people_only_prints (people : loc) (c : console) :
  exists r ls, list_people people c = (r, add_lines (Rule :: Header :: Rule :: ls) c).
Proof.
  unfold list_people.
  unfold bind_T at 1. unfold show at 1.
  unfold bind_T at 1. unfold show at 1.
  unfold bind_T at 1. unfold show at 1.
  rewrite !add_lines_app. cbn [app].
  set (c1 := add_lines [Rule; Header; Rule] c).
  match goal with |- exists r ls, ?m c1 = _ => assert (Hm : only_prints m) end.
  { apply only_prints_bind; [apply only_prints_lift, only_reads_list_items|].
    intros items. apply only_prints_bind; [|intros _; apply only_prints_show].
    apply only_prints_for_enumerate. intros idx person.
    apply only_prints_bind; [apply only_prints_lift, only_reads_dict_of|]. intros d.
    apply only_prints_bind; [apply only_prints_lift, only_reads_strftime|]. intros b.
    apply only_prints_bind; [|intros row; apply only_prints_show].
    unfold format_row. destruct (_ && _).
    - apply only_prints_ret.
    - apply only_prints_raise. }
  destruct (Hm c1) as (r & ls & Hrun). exists r, ls.
  rewrite Hrun. subst c1. by rewrite add_lines_app.
Qed.

(** ** Selecting from records without a date *)

Lemma for_each_app {A S : Type} (l1 l2 : list A) (s : S) (body : A -> S -> M S)
    (st : state) :
  for_each (l1 ++ l2) s body st
  = (s' <- for_each l1 s body ;; for_each l2 s' body) st.
Proof.
  revert s st. induction l1 as [|x l1 IH]; intros s st; [done|].
  cbn [app for_each]. unfold bind.
  destruct (body x s st) as [[s'|e] st']; [|done].
  rewrite IH. reflexivity.
Qed.

(** X17.  [select_people] stops with [AttributeError] at the first record
    whose date is no [datetime]: the matches among the records before it
    are printed by then, numbered from 1, and the notice is never printed.
    Nothing else changes. *)
Theorem select_people_stops_at_record (people : loc) (month : Z)
    (ds ds' : list (gmap string pyval)) (d : gmap string pyval) (st : state) :
  holds_records (heap st) people (ds ++ d :: ds') ->
  Forall (fun d => exists dt, d !! "date_of_birth" = Some (PDatetime dt)) ds ->
  (forall dt, d !! "date_of_birth" <> Some (PDatetime dt)) ->
  select_people people month st
  = (Raised AttributeError,
     add_stdouts (imap selected_line (filter (fun d => born_in month d = true) ds)) st).
Proof.
  intros (items & Hp & Hl) Hds Hd. unfold select_people.
  rewrite (bind_Ok _ _ _ _ _ (list_items_run _ _ _ Hp)).
  apply Forall2_app_inv_r in Hl as (items1 & items2 & Hl1 & Hl2 & ->).
  apply Forall2_cons_inv_r in Hl2 as (l & items3 & Hld & _ & ->).
  unfold bind at 1. rewrite for_each_app.
  pose proof (select_loop month items1 ds 0 st Hl1 Hds) as Hloop. cbv zeta in Hloop.
  change (Z.of_nat 0) with 0 in Hloop.
  rewrite (bind_Ok _ _ _ _ _ Hloop). cbn [for_each].
  unfold bind at 1. unfold bind at 1.
  rewrite (dict_of_run l d) by exact Hld.
  unfold bind at 1. unfold dict_get at 1.
  destruct (d !! "date_of_birth") as [[j|dt]|] eqn:Hdt; cbn [attr_month py_None].
  - done.
  - by destruct (Hd dt).
  - done.
Qed.

Lemma select_people_stops_at_record_witness :
  select_people 1%positive 1
    (mk_state {[ 1%positive := PyList [2%positive; 3%positive; 4%positive];
                 2%positive := PyDict boris;
                 3%positive := PyDict (delete "date_of_birth" anna);
                 4%positive := PyDict anna ]} ∅ [])
  = (Raised AttributeError,
     add_stdouts (imap selected_line (filter (fun d => born_in 1 d = true) [boris]))
       (mk_state {[ 1%positive := PyList [2%positive; 3%positive; 4%positive];
                    2%positive := PyDict boris;
                    3%positive := PyDict (delete "date_of_birth" anna);
                    4%positive := PyDict anna ]} ∅ [])).
Proof.
  apply (select_people_stops_at_record 1%positive 1 [boris] [anna]
           (delete "date_of_birth" anna)).
  - exists [2%positive; 3%positive; 4%positive]. split; [reflexivity|].
    repeat constructor.
  - constructor; [|constructor]. by exists (mk_datetime 1985 1 1).
  - intros dt. discriminate.
Defined.
